(** * Flipkart ingestion pipeline: a shallow embedding of
    [backend/modules/flipkart/main.py] and [backend/modules/flipkart/api.py].

    JSON values are modelled as they come out of [json.loads]; Python's
    subscript, iteration and [.values()] on them are written out with the
    exceptions they raise.  Stateful methods run in a small state/exception
    monad whose state carries the instance attribute [PAGE], the database
    table, the scripted network and an event trace (log lines, requests,
    sleeps). *)

From Stdlib Require Import String Ascii List ZArith Bool Lia.
Import ListNotations.
Open Scope string_scope.
Open Scope Z_scope.
Set Warnings "-register-all".

(** ** JSON values and the Python operations used on them *)

Inductive json : Type :=
| JNull
| JBool (b : bool)
| JNum (z : Z)
| JStr (s : string)
| JArr (l : list json)
| JObj (kvs : list (string * json)).

(** The Python exceptions the code can raise. *)
Inductive exc : Type :=
| KeyError (k : string)
| TypeError
| IndexError
| AttributeError
| JSONDecodeError
| FetchFailed (reason : string)   (* [raise Exception('Failed to fetch URL ...')] *)
| TransportError.                 (* an exception raised by [requests.get]/[post] *)

Inductive res (A : Type) : Type :=
| Ok (a : A)
| Err (e : exc).
Arguments Ok {A} a.
Arguments Err {A} e.

Definition rbind {A B} (r : res A) (f : A -> res B) : res B :=
  match r with Ok a => f a | Err e => Err e end.

Notation "x <-? r ; k" := (rbind r (fun x => k))
  (at level 61, r at next level, right associativity).

Fixpoint assoc (k : string) (kvs : list (string * json)) : option json :=
  match kvs with
  | [] => None
  | (k', v) :: rest => if String.eqb k k' then Some v else assoc k rest
  end.

(** [x[k]] with a string key [k]. *)
Definition getitem (x : json) (k : string) : res json :=
  match x with
  | JObj kvs => match assoc k kvs with Some v => Ok v | None => Err (KeyError k) end
  | _ => Err TypeError
  end.

Definition char_str (c : ascii) : json := JStr (String c EmptyString).

(** [x[0]]. *)
Definition getitem0 (x : json) : res json :=
  match x with
  | JArr (v :: _) => Ok v
  | JArr [] => Err IndexError
  | JStr (String c _) => Ok (char_str c)
  | JStr EmptyString => Err IndexError
  | JObj _ => Err (KeyError "0")
  | _ => Err TypeError
  end.

(** [for v in x]: lists yield their items, dicts their keys, strings their
    characters; other values are not iterable. *)
Definition py_iter (x : json) : res (list json) :=
  match x with
  | JArr l => Ok l
  | JObj kvs => Ok (map (fun kv => JStr (fst kv)) kvs)
  | JStr s => Ok (map char_str (list_ascii_of_string s))
  | _ => Err TypeError
  end.

(** [x.values()]. *)
Definition py_values (x : json) : res (list json) :=
  match x with
  | JObj kvs => Ok (map snd kvs)
  | _ => Err AttributeError
  end.

(** [x == 'lit'] for a string literal. *)
Definition py_eq_str (x : json) (lit : string) : bool :=
  match x with JStr s => String.eqb s lit | _ => false end.

(** Python truthiness of a JSON value. *)
Definition truthy (x : json) : bool :=
  match x with
  | JNull => false
  | JBool b => b
  | JNum z => negb (z =? 0)
  | JStr s => negb (String.eqb s "")
  | JArr l => match l with [] => false | _ => true end
  | JObj l => match l with [] => false | _ => true end
  end.

Fixpoint json_eqb (a b : json) {struct a} : bool :=
  match a, b with
  | JNull, JNull => true
  | JBool x, JBool y => Bool.eqb x y
  | JNum x, JNum y => Z.eqb x y
  | JStr x, JStr y => String.eqb x y
  | JArr xs, JArr ys =>
      (fix go (xs ys : list json) : bool :=
         match xs, ys with
         | [], [] => true
         | x :: xs', y :: ys' => json_eqb x y && go xs' ys'
         | _, _ => false
         end) xs ys
  | JObj xs, JObj ys =>
      (fix go (xs ys : list (string * json)) : bool :=
         match xs, ys with
         | [], [] => true
         | (k, x) :: xs', (k', y) :: ys' =>
             String.eqb k k' && json_eqb x y && go xs' ys'
         | _, _ => false
         end) xs ys
  | _, _ => false
  end.

(** ** Strings: [str.replace], [str.rstrip] and [urljoin] *)

Fixpoint str_prefix (p s : string) : bool :=
  match p, s with
  | EmptyString, _ => true
  | String a p', String b s' => Ascii.eqb a b && str_prefix p' s'
  | String _ _, EmptyString => false
  end.

Fixpoint str_drop (n : nat) (s : string) : string :=
  match n, s with
  | O, _ => s
  | S n', String _ s' => str_drop n' s'
  | S _, EmptyString => EmptyString
  end.

Fixpoint replace_aux (fuel : nat) (old new s : string) : string :=
  match fuel with
  | O => s
  | S fuel' =>
      match s with
      | EmptyString => EmptyString
      | String c rest =>
          if str_prefix old s
          then new ++ replace_aux fuel' old new (str_drop (String.length old) s)
          else String c (replace_aux fuel' old new rest)
      end
  end.

(** [s.replace(old, new)] for a non-empty [old]: every non-overlapping
    occurrence, scanning left to right. *)
Definition py_replace (s old new : string) : string :=
  replace_aux (String.length s) old new s.

Fixpoint drop_while_semi (l : list ascii) : list ascii :=
  match l with
  | c :: l' => if Ascii.eqb c ";"%char then drop_while_semi l' else l
  | [] => []
  end.

(** [s.rstrip(';')]. *)
Definition rstrip_semi (s : string) : string :=
  string_of_list_ascii (rev (drop_while_semi (rev (list_ascii_of_string s)))).

Fixpoint split_at (c : ascii) (s : string) : string * option string :=
  match s with
  | EmptyString => (EmptyString, None)
  | String d s' =>
      if Ascii.eqb c d then (EmptyString, Some s')
      else let (a, b) := split_at c s' in (String d a, b)
  end.

Fixpoint last_slash_dir (s : string) : string :=
  (* the prefix of [s] up to and including its last '/' *)
  match s with
  | EmptyString => EmptyString
  | String d s' =>
      let r := last_slash_dir s' in
      match r with
      | EmptyString => if Ascii.eqb d "/"%char then String d EmptyString else EmptyString
      | _ => String d r
      end
  end.

Definition is_scheme_char (c : ascii) : bool :=
  let n := nat_of_ascii c in
  ((97 <=? n) && (n <=? 122))%nat || ((65 <=? n) && (n <=? 90))%nat
  || ((48 <=? n) && (n <=? 57))%nat || Ascii.eqb c "+" || Ascii.eqb c "-"
  || Ascii.eqb c ".".

(** Whether a reference starts with [scheme ':']. *)
Definition has_scheme (u : string) : bool :=
  match split_at ":" u with
  | (String c sc, Some _) =>
      let n := nat_of_ascii c in
      (((97 <=? n) && (n <=? 122)) || ((65 <=? n) && (n <=? 90)))%nat
      && forallb is_scheme_char (list_ascii_of_string sc)
  | _ => false
  end.

(** [urllib.parse.urljoin(base, url)] for a string [url] and a base of the
    form [scheme://netloc/path], as the two base URLs of the code are.
    Network-path, absolute-path and relative-path references are resolved
    by RFC 3986 section 5.2; dot segments, queries and fragments are not
    normalised (the references handled by this code carry none). *)
Definition urljoin_str (base url : string) : string :=
  let (scheme, rest) := split_at ":" base in
  let after := match rest with Some r => str_drop 2 r | None => EmptyString end in
  let (netloc, path) := split_at "/" after in
  let bpath := match path with Some p => String "/" p | None => "/" end in
  if String.eqb url "" then base
  else if str_prefix "//" url then scheme ++ ":" ++ url
  else if str_prefix "/" url then scheme ++ "://" ++ netloc ++ url
  else if has_scheme url then url
  else scheme ++ "://" ++ netloc ++ last_slash_dir bpath ++ url.

(** [urljoin(base, x)] for a JSON value [x]: a falsy [x] gives [base], a
    non-string truthy [x] raises [TypeError] (mixing str and non-str). *)
Definition urljoin (base : string) (x : json) : res string :=
  if negb (truthy x) then Ok base
  else match x with
       | JStr u => Ok (urljoin_str base u)
       | _ => Err TypeError
       end.

(** ** Extraction: [get_products] of both scrapers *)

(** The body of the inner loop, for one [slot]:
    [if slot['slotType'] == 'WIDGET' and slot['widget']['type'] == 'PRODUCT_SUMMARY':
       PRODUCTS.append(slot['widget']['data']['products'][0]['productInfo']['value'])]
    with Python's short-circuiting [and].  [Some v] is the appended value. *)
Definition slot_step (slot : json) : res (option json) :=
  st <-? getitem slot "slotType";
  if py_eq_str st "WIDGET" then
    w <-? getitem slot "widget";
    t <-? getitem w "type";
    if py_eq_str t "PRODUCT_SUMMARY" then
      w' <-? getitem slot "widget";
      d <-? getitem w' "data";
      ps <-? getitem d "products";
      p0 <-? getitem0 ps;
      pi <-? getitem p0 "productInfo";
      v <-? getitem pi "value";
      Ok (Some v)
    else Ok None
  else Ok None.

Definition opt_cons {A} (o : option A) (l : list A) : list A :=
  match o with Some a => a :: l | None => l end.

(** [for slot in slots: ...], appending in order. *)
Fixpoint collect_slots (slots : list json) : res (list json) :=
  match slots with
  | [] => Ok []
  | s :: ss =>
      o <-? slot_step s;
      rest <-? collect_slots ss;
      Ok (opt_cons o rest)
  end.

(** [for item in values: for slot in item: ...]. *)
Fixpoint collect_items (items : list json) : res (list json) :=
  match items with
  | [] => Ok []
  | it :: its =>
      slots <-? py_iter it;
      a <-? collect_slots slots;
      b <-? collect_items its;
      Ok (a ++ b)%list
  end.

(** [FlipkartScraper.get_products] (main.py). *)
Definition get_products_html (json_response : json) : res (list json) :=
  p <-? getitem json_response "pageDataV4";
  pg <-? getitem p "page";
  data <-? getitem pg "data";
  items <-? py_values data;
  collect_items items.

(** [FlipkartApiScraper.get_products] (api.py). *)
Definition get_products_api (json_response : json) : res (list json) :=
  r <-? getitem json_response "RESPONSE";
  sl <-? getitem r "slots";
  slots <-? py_iter sl;
  collect_slots slots.

(** ** Normalisation: [get_product_details] *)

Record details : Type := mkDetails {
  product_id : json;
  title : json;
  url : string;
  rating : json;
  specifications : json;
  media : list json;
  pricing : json;
  category : json;
  warrantySummary : json;
  availability : json;
  source : string
}.

Fixpoint map_res {A B} (f : A -> res B) (l : list A) : res (list B) :=
  match l with
  | [] => Ok []
  | x :: xs => y <-? f x; ys <-? map_res f xs; Ok (y :: ys)
  end.

(** [FlipkartScraper.get_product_details]; [base] is [self.BASE_URL] of the
    instance: the method is inherited by [FlipkartApiScraper], which
    overrides [BASE_URL].  The dict literal is evaluated field by field,
    left to right. *)
Definition get_product_details (base : string) (product : json) : res details :=
  pid <-? getitem product "id";
  titles <-? getitem product "titles";
  ttl <-? getitem titles "title";
  bu <-? getitem product "baseUrl";
  u <-? urljoin base bu;
  rt <-? getitem product "rating";
  ks <-? getitem product "keySpecs";
  md <-? getitem product "media";
  imgs <-? getitem md "images";
  imgl <-? py_iter imgs;
  urls <-? map_res (fun img => getitem img "url") imgl;
  pr <-? getitem product "pricing";
  vt <-? getitem product "vertical";
  ws <-? getitem product "warrantySummary";
  av <-? getitem product "availability";
  ds <-? getitem av "displayState";
  Ok (mkDetails pid ttl u rt ks urls pr vt ws ds "flipkart").

(** Class attributes. *)
Definition BASE_URL_html : string := "https://www.flipkart.com/".
Definition BASE_URL_api : string := "https://1.rome.api.flipkart.com/api/4/page/fetch".
Definition SEARCH_URL : string := urljoin_str BASE_URL_html "search".
(** ** The instance state and the effect monad *)

(** Observable effects, in order: log lines (by their format string and
    integer arguments), outbound requests and sleeps. *)
Inductive event : Type :=
| EvInfo (msg : string)
| EvInfoZ (fmt : string) (args : list Z)
| EvWarn (fmt : string)
| EvError (fmt : string)
| EvGet (url query : string) (page : Z)     (* [requests.get(url, params=...)] *)
| EvPost (url query : string) (page : Z)    (* [requests.post(BASE_URL, json=...)] *)
| EvSleep (secs : Z).

(** What one call of [requests.get]/[requests.post] gives back: it raises,
    or it returns a response with [response.ok], [response.reason] and
    [response.text]. *)
Inductive response : Type :=
| RespExc
| RespHttp (ok : bool) (reason text : string).

Record state : Type := mkState {
  PAGE : Z;                 (* [self.PAGE] *)
  db : list details;        (* the [products] table *)
  net : list response;      (* the answers the network gives, in order *)
  trace : list event
}.

Definition M (A : Type) : Type := state -> res A * state.

Definition mret {A} (a : A) : M A := fun s => (Ok a, s).
Definition mbind {A B} (m : M A) (f : A -> M B) : M B :=
  fun s => match m s with
           | (Ok a, s') => f a s'
           | (Err e, s') => (Err e, s')
           end.
Definition raise {A} (e : exc) : M A := fun s => (Err e, s).
(** [try: m except Exception as e: h e] *)
Definition catch {A} (m : M A) (h : exc -> M A) : M A :=
  fun s => match m s with
           | (Ok a, s') => (Ok a, s')
           | (Err e, s') => h e s'
           end.
Definition lift {A} (r : res A) : M A :=
  fun s => match r with Ok a => (Ok a, s) | Err e => (Err e, s) end.

Notation "x <- m ;; k" := (mbind m (fun x => k))
  (at level 61, m at next level, right associativity).
Notation "m ;; k" := (mbind m (fun _ => k))
  (at level 61, right associativity).

Definition emit (ev : event) : M unit :=
  fun s => (Ok tt, mkState (PAGE s) (db s) (net s) (trace s ++ [ev])).
Definition sleep (secs : Z) : M unit := emit (EvSleep secs).
Definition get_page : M Z := fun s => (Ok (PAGE s), s).
Definition set_page (p : Z) : M unit :=
  fun s => (Ok tt, mkState p (db s) (net s) (trace s)).

(** The network answers the next request; once its script is exhausted,
    every further request raises. *)
Definition next_response : M response :=
  fun s => match net s with
           | r :: rest => (Ok r, mkState (PAGE s) (db s) rest (trace s))
           | [] => (Ok RespExc, s)
           end.

(** ** Fetching: [get_response] under [@retry(Exception, tries=3, delay=2)] *)

(** The loop of the [retry] package ([__retry_internal]) with
    [backoff=1], [jitter=0], [max_delay=None] and its default logger:
    [tries_left] further attempts follow the current one; on an exception
    with attempts left it logs a warning, sleeps [delay] and calls again,
    on the last attempt the exception propagates. *)
Fixpoint retry_loop {A} (tries_left : nat) (delay : Z) (f : M A) : M A :=
  match tries_left with
  | O => f
  | S n =>
      catch f (fun _ =>
        emit (EvWarn "%s, retrying in %s seconds...") ;;
        sleep delay ;;
        retry_loop n (delay * 1 + 0) f)
  end.

Definition retry {A} (tries : nat) (delay : Z) (f : M A) : M A :=
  retry_loop (Nat.pred tries) delay f.

(** One call of the body of [FlipkartScraper.get_response]. *)
Definition get_response_html_body (url query : string) : M string :=
  p <- get_page ;;
  emit (EvGet url query p) ;;
  r <- next_response ;;
  match r with
  | RespExc => raise TransportError
  | RespHttp ok reason text =>
      if ok then mret text else raise (FetchFailed reason)
  end.

(** [FlipkartScraper.get_response]. *)
Definition get_response_html (url query : string) : M string :=
  retry 3 2 (get_response_html_body url query).

(** ** Persistence *)

(** Modelled from the spec: [MysqlConnection.exists] and
    [MysqlConnection.insert] (backend/alchemy/database.py, not part of the
    sources).  The spec's persistence collaborator: [exists(product_id)]
    tells whether a row with that [product_id] is stored, [insert(record)]
    adds the record as a new row. *)
Definition db_exists (pid : json) : M bool :=
  fun s => (Ok (existsb (fun r => json_eqb (product_id r) pid) (db s)), s).

(** Modelled from the spec: [MysqlConnection.insert], see [db_exists]. *)
Definition db_insert (d : details) : M unit :=
  fun s => (Ok tt, mkState (PAGE s) (db s ++ [d]) (net s) (trace s)).

(** [FlipkartScraper.save_to_db]. *)
Definition save_to_db (d : details) : M unit :=
  b <- db_exists (product_id d) ;;
  if negb b then
    db_insert d ;;
    emit (EvInfo "Product details for %s saved to database")
  else
    emit (EvInfo "Product details for %s already exists in database") ;;
    emit (EvInfo "Skipping...").

(** [for product in products: save_to_db(get_product_details(product))],
    the loop shared by both [start] methods. *)
Fixpoint persist_all (base : string) (products : list json) : M unit :=
  match products with
  | [] => mret tt
  | p :: ps =>
      d <- lift (get_product_details base p) ;;
      save_to_db d ;;
      persist_all base ps
  end.

(** ** One page: [start] of both scrapers *)

Section Pipeline.

(** [BeautifulSoup(text, 'html.parser').find('script', id='is_script')]:
    [None] when there is no such element, [Some None] when it has no
    single string child ([script.string is None]), [Some (Some body)]
    otherwise. *)
Variable find_script : string -> option (option string).

(** [json.loads]: [None] when it raises [JSONDecodeError]. *)
Variable json_loads : string -> option json.

(** [FlipkartScraper.get_json_response]. *)
Definition get_json_response (text : string) : M json :=
  match find_script text with
  | Some (Some body) =>
      let script_text :=
        rstrip_semi (py_replace body "window.__INITIAL_STATE__ = " "") in
      match json_loads script_text with
      | Some j => mret j
      | None => emit (EvError "Failed to parse JSON data: %s") ;; mret (JObj [])
      end
  | Some None => raise AttributeError
  | None => emit (EvError "No script found with id: is_script") ;; mret (JObj [])
  end.

(** [FlipkartScraper.start]. *)
Definition start_html (query : string) : M unit :=
  text <- get_response_html SEARCH_URL query ;;
  emit (EvInfo "Getting JSON response") ;;
  json_response <- get_json_response text ;;
  products <- lift (get_products_html json_response) ;;
  persist_all BASE_URL_html products.

(** One call of the body of [FlipkartApiScraper.get_response]; the request
    body embeds the query and [self.PAGE], and [response.json()] parses
    the text. *)
Definition get_response_api_body (query : string) : M json :=
  p <- get_page ;;
  emit (EvPost BASE_URL_api query p) ;;
  r <- next_response ;;
  match r with
  | RespExc => raise TransportError
  | RespHttp ok reason text =>
      if ok then
        match json_loads text with
        | Some j => mret j
        | None => raise JSONDecodeError
        end
      else raise (FetchFailed reason)
  end.

(** [FlipkartApiScraper.get_response]. *)
Definition get_response_api (query : string) : M json :=
  retry 3 2 (get_response_api_body query).

(** [FlipkartApiScraper.start]; [get_product_details] runs with the API
    scraper's [BASE_URL]. *)
Definition start_api (query : string) : M unit :=
  response <- get_response_api query ;;
  products <- lift (get_products_api response) ;;
  persist_all BASE_URL_api products.

End Pipeline.

(** ** The driver: [run] of both scrapers *)

Record config : Type := mkConfig {
  ENABLE_PAGINATION : bool;
  MAX_PAGES : Z
}.

(** Class attributes of [FlipkartScraper] and [FlipkartApiScraper]. *)
Definition cfg_html : config := mkConfig true 10.
Definition cfg_api : config := mkConfig false 10.

(** [while self.PAGE <= self.MAX_PAGES: ...; self.PAGE += 1].  The loop is
    run on [fuel]; [run] gives it one unit per page left, which is enough
    since each iteration raises [PAGE] by one. *)
Fixpoint while_pages (cfg : config) (start : M unit) (fuel : nat) : M unit :=
  match fuel with
  | O => mret tt
  | S fuel' =>
      p <- get_page ;;
      if p <=? MAX_PAGES cfg then
        emit (EvInfoZ "Fetching page %s" [p]) ;;
        start ;;
        emit (EvInfo "Sleeping for 5 seconds...") ;;
        sleep 5 ;;
        p' <- get_page ;;
        set_page (p' + 1) ;;
        while_pages cfg start fuel'
      else mret tt
  end.

Definition pages_left (cfg : config) (p : Z) : nat := Z.to_nat (MAX_PAGES cfg - p + 1).

(** [FlipkartScraper.run]; [start] is [self.start]. *)
Definition run_html (cfg : config) (start : string -> M unit) : M unit :=
  emit (EvInfo "Starting Flipkart Scraper...") ;;
  let query := "Mobile Phones" in
  if ENABLE_PAGINATION cfg then
    emit (EvInfo "PAGINATION ENABLED") ;;
    p <- get_page ;;
    emit (EvInfoZ "Starting from page %s -> %s" [p; p + MAX_PAGES cfg]) ;;
    while_pages cfg (start query) (pages_left cfg p) ;;
    emit (EvInfo "All pages fetched") ;;
    emit (EvInfo "All products saved to database") ;;
    emit (EvInfo "Flipkart Scraper Completed")
  else
    start query ;;
    emit (EvInfo "All products saved to database") ;;
    emit (EvInfo "Flipkart Scraper Completed").

(** [FlipkartApiScraper.run]. *)
Definition run_api (cfg : config) (start : string -> M unit) : M unit :=
  emit (EvInfo "Flipkart API Scraper Started") ;;
  let query := "Mobile Phones" in
  if ENABLE_PAGINATION cfg then
    emit (EvInfo "PAGINATION ENABLED") ;;
    p <- get_page ;;
    emit (EvInfoZ "Starting from page %s -> %s" [p; p + MAX_PAGES cfg]) ;;
    while_pages cfg (start query) (pages_left cfg p) ;;
    emit (EvInfo "All pages fetched") ;;
    emit (EvInfo "Flipkart API Scraper Completed")
  else
    emit (EvInfo "Getting response for query: %s") ;;
    start query ;;
    emit (EvInfo "Flipkart API Scraper Completed").

(** A freshly constructed scraper: [PAGE] is the class attribute [1]. *)
Definition fresh (d : list details) (n : list response) : state := mkState 1 d n [].
(** ** Vocabulary of the claims and fixtures *)

(** A request that the fetch treats as failed: the transport raised, or
    the response is not [ok]. *)
Definition failing (r : response) : bool :=
  match r with RespExc => true | RespHttp ok _ _ => negb ok end.

Definition count_pid (pid : json) (rows : list details) : nat :=
  length (filter (fun r => json_eqb (product_id r) pid) rows).

Definition record_P1 : details :=
  mkDetails (JStr "P1") (JStr "Phone X") "https://www.flipkart.com/p/p1" JNull JNull
    [JStr "http://img/1.jpg"] JNull (JStr "MOBILES") (JStr "1 Year") (JStr "IN_STOCK") "flipkart".

(** The payload of the claim, with its opaque rating, key-specs and
    pricing blocks. *)
Definition payload_P1 (rt ks pr : json) : json :=
  JObj [("id", JStr "P1"); ("titles", JObj [("title", JStr "Phone X")]);
        ("baseUrl", JStr "/p/p1"); ("rating", rt); ("keySpecs", ks);
        ("media", JObj [("images", JArr [JObj [("url", JStr "http://img/1.jpg")]])]);
        ("pricing", pr); ("vertical", JStr "MOBILES");
        ("warrantySummary", JStr "1 Year");
        ("availability", JObj [("displayState", JStr "IN_STOCK")])].

Definition INITIAL_STATE_PREFIX : string := "window.__INITIAL_STATE__ = ".

Definition no_script (text : string) : option (option string) := None.
Definition no_json (text : string) : option json := None.

(** Fixture documents: a qualifying slot carrying [v], and the two
    response shapes holding a list of slots. *)
Definition slot_of (v : json) : json :=
  JObj [("slotType", JStr "WIDGET");
        ("widget", JObj [("type", JStr "PRODUCT_SUMMARY");
                         ("data", JObj [("products",
                            JArr [JObj [("productInfo", JObj [("value", v)])]])])])].

Definition html_doc (slots : list json) : json :=
  JObj [("pageDataV4", JObj [("page", JObj [("data", JObj [("1", JArr slots)])])])].

Definition api_doc (slots : list json) : json :=
  JObj [("RESPONSE", JObj [("slots", JArr slots)])].

Definition payload_P1_no_id_kvs : list (string * json) :=
  [("titles", JObj [("title", JStr "Phone X")]);
   ("baseUrl", JStr "/p/p1"); ("rating", JNull); ("keySpecs", JNull);
   ("media", JObj [("images", JArr [])]); ("pricing", JNull);
   ("vertical", JStr "MOBILES"); ("warrantySummary", JStr "1 Year");
   ("availability", JObj [("displayState", JStr "IN_STOCK")])].

Definition payload_P2 : json :=
  JObj (("id", JStr "P2") :: payload_P1_no_id_kvs).

(** The script body is the state object itself, and [json.loads] of it
    gives [doc]. *)
Definition script_body (text : string) : option (option string) := Some (Some text).
Definition loads_to (doc : json) (text : string) : option json := Some doc.

Definition preserves_page {A} (m : M A) : Prop := forall s, PAGE (snd (m s)) = PAGE s.

Definition cfg_max3 : config := mkConfig true 3.

(** The events of a fetch whose three attempts all fail. *)
Definition failed_fetch (req : Z -> event) (p : Z) : list event :=
  [req p; EvWarn "%s, retrying in %s seconds..."; EvSleep 2; req p;
   EvWarn "%s, retrying in %s seconds..."; EvSleep 2; req p].

Definition html_run_net : list response := repeat (RespHttp true "OK" "<html/>") 10.
Definition no_start (query : string) : M unit := mret tt.

Definition obj_get (x : json) (k : string) : option json :=
  match x with JObj kvs => assoc k kvs | _ => None end.

Definition res_to_option {A} (r : res A) : option A :=
  match r with Ok a => Some a | Err _ => None end.

(** The slot qualifies: its slot-type tag is the widget marker and its
    widget's type tag is the product-summary marker. *)
Definition qualifies (slot : json) : bool :=
  match obj_get slot "slotType" with Some t => py_eq_str t "WIDGET" | None => false end &&
  match option_map (fun w => obj_get w "type") (obj_get slot "widget") with
  | Some (Some t) => py_eq_str t "PRODUCT_SUMMARY"
  | _ => false
  end.

(** The nested value of the first entry of the slot's product list. *)
Definition slot_value (slot : json) : option json :=
  match obj_get slot "widget" with
  | Some w =>
      match obj_get w "data" with
      | Some d =>
          match obj_get d "products" with
          | Some (JArr (p0 :: _)) =>
              match obj_get p0 "productInfo" with
              | Some pi => obj_get pi "value"
              | None => None
              end
          | _ => None
          end
      | None => None
      end
  | None => None
  end.

(** A slot carries the tags the test reads, and, if it qualifies, the
    nested product value. *)
Definition slot_wf (slot : json) : Prop :=
  (exists t, obj_get slot "slotType" = Some t /\
     (py_eq_str t "WIDGET" = true ->
        exists w t', obj_get slot "widget" = Some w /\ obj_get w "type" = Some t')) /\
  (qualifies slot = true -> exists v, slot_value slot = Some v).

(** [for slot in item] over each item, when every item is iterable. *)
Fixpoint iter_all (items : list json) : option (list (list json)) :=
  match items with
  | [] => Some []
  | it :: its =>
      match res_to_option (py_iter it), iter_all its with
      | Some l, Some ls => Some (l :: ls)
      | _, _ => None
      end
  end.

(** The slots of a page document, in traversal order: the items of each
    value of [pageDataV4.page.data]. *)
Definition html_slots (doc : json) : option (list json) :=
  match obj_get doc "pageDataV4" with
  | Some p =>
      match obj_get p "page" with
      | Some pg =>
          match obj_get pg "data" with
          | Some (JObj kvs) =>
              option_map (@concat json) (iter_all (map snd kvs))
          | _ => None
          end
      | None => None
      end
  | None => None
  end.

(** The slots of an API response: the items of [RESPONSE.slots]. *)
Definition api_slots (doc : json) : option (list json) :=
  match obj_get doc "RESPONSE" with
  | Some r =>
      match obj_get r "slots" with
      | Some sl => res_to_option (py_iter sl)
      | None => None
      end
  | None => None
  end.

(** A non-qualifying slot of a fixture: another widget. *)
Definition other_slot : json :=
  JObj [("slotType", JStr "WIDGET"); ("widget", JObj [("type", JStr "FILTERS")])].

(** A qualifying slot whose product list is empty. *)
Definition empty_products_slot : json :=
  JObj [("slotType", JStr "WIDGET");
        ("widget", JObj [("type", JStr "PRODUCT_SUMMARY");
                         ("data", JObj [("products", JArr [])])])].

(** One iteration of the pagination loop at page [p], with the page made
    explicit. *)
Definition page_iteration (start : M unit) (p : Z) : M unit :=
  set_page p ;;
  emit (EvInfoZ "Fetching page %s" [p]) ;;
  start ;;
  emit (EvInfo "Sleeping for 5 seconds...") ;;
  sleep 5 ;;
  set_page (p + 1).

(** [k] successive loop iterations from page [p]. *)
Fixpoint pages_from (start : M unit) (p : Z) (k : nat) : M unit :=
  match k with
  | O => mret tt
  | S k' => page_iteration start p ;; pages_from start (p + 1) k'
  end.

(** Whether a stored row has product id [pid]: the test [save_to_db] makes. *)
Definition pid_in (rows : list details) (pid : json) : bool :=
  existsb (fun r => json_eqb (product_id r) pid) rows.

(** The table after saving [ds] in order, each one only when its product id
    is not stored yet. *)
Fixpoint add_new (rows : list details) (ds : list details) : list details :=
  match ds with
  | [] => rows
  | d :: ds' => add_new (if pid_in rows (product_id d) then rows else rows ++ [d]) ds'
  end.

(** No row has the product id of an earlier row. *)
Fixpoint uniq_from (seen : list details) (rows : list details) : Prop :=
  match rows with
  | [] => True
  | r :: rs => pid_in seen (product_id r) = false /\ uniq_from (seen ++ [r]) rs
  end.

Definition pids_unique (rows : list details) : Prop := uniq_from [] rows.

(** Whether [old] occurs in [s]. *)
Fixpoint occurs (old s : string) : bool :=
  str_prefix old s ||
  match s with
  | EmptyString => false
  | String _ s' => occurs old s'
  end.

(** Whether [s] ends with ';'. *)
Definition ends_with_semi (s : string) : bool :=
  match rev (list_ascii_of_string s) with
  | c :: _ => Ascii.eqb c ";"%char
  | [] => false
  end.

(** [n] semicolons. *)
Definition semis (n : nat) : string := string_of_list_ascii (repeat ";"%char n).



Example urljoin_search : SEARCH_URL = "https://www.flipkart.com/search".
Proof. reflexivity. Qed.
Example urljoin_api : urljoin_str BASE_URL_api "/p/p1" = "https://1.rome.api.flipkart.com/p/p1".
Proof. reflexivity. Qed.
Example urljoin_rel : urljoin_str BASE_URL_api "x" = "https://1.rome.api.flipkart.com/api/4/page/x".
Proof. reflexivity. Qed.

(** ** Basic facts *)

Lemma json_eqb_refl : forall j, json_eqb j j = true.
Proof.
  fix IH 1. intros [| b | z | s | l | kvs]; simpl.
  - reflexivity.
  - apply Bool.eqb_reflx.
  - apply Z.eqb_refl.
  - apply String.eqb_refl.
  - induction l as [| x xs IHl]; [reflexivity |]. rewrite IH. exact IHl.
  - induction kvs as [| [k x] xs IHl]; [reflexivity |].
    rewrite String.eqb_refl, IH. exact IHl.
Qed.

Lemma existsb_false_filter {A} (f : A -> bool) (l : list A) :
  existsb f l = false -> filter f l = [].
Proof.
  induction l as [| x l IH]; simpl; [reflexivity |].
  destruct (f x); simpl; [discriminate | exact IH].
Qed.

Ltac unfold_monad :=
  unfold retry, retry_loop, catch, mbind, mret, raise, lift, emit, sleep,
    get_page, set_page, next_response.

Ltac destruct_failing r :=
  destruct r as [| [|] ? ?]; simpl in *; try discriminate.

(** ** C4: bounded retry of the fetch *)

(** C4. Both fetchers make at most three attempts, two time units apart,
    and treat a non-ok response like a transport exception: after two
    failed attempts a successful third one is returned, and three failed
    attempts raise to the caller.  Nothing else is requested. *)
Theorem C4_fetch_retry :
  forall r1 r2 r3 reason text rest s,
    failing r1 = true -> failing r2 = true ->
    (forall url query,
        net s = r1 :: r2 :: RespHttp true reason text :: rest ->
        get_response_html url query s =
          (Ok text,
           mkState (PAGE s) (db s) rest
             (trace s ++ [EvGet url query (PAGE s); EvWarn "%s, retrying in %s seconds...";
                          EvSleep 2; EvGet url query (PAGE s);
                          EvWarn "%s, retrying in %s seconds..."; EvSleep 2;
                          EvGet url query (PAGE s)]))) /\
    (forall url query,
        failing r3 = true ->
        net s = r1 :: r2 :: r3 :: rest ->
        exists e,
          get_response_html url query s =
            (Err e,
             mkState (PAGE s) (db s) rest
               (trace s ++ [EvGet url query (PAGE s); EvWarn "%s, retrying in %s seconds...";
                            EvSleep 2; EvGet url query (PAGE s);
                            EvWarn "%s, retrying in %s seconds..."; EvSleep 2;
                            EvGet url query (PAGE s)]))) /\
    (forall json_loads query j,
        json_loads text = Some j ->
        net s = r1 :: r2 :: RespHttp true reason text :: rest ->
        get_response_api json_loads query s =
          (Ok j,
           mkState (PAGE s) (db s) rest
             (trace s ++ [EvPost BASE_URL_api query (PAGE s); EvWarn "%s, retrying in %s seconds...";
                          EvSleep 2; EvPost BASE_URL_api query (PAGE s);
                          EvWarn "%s, retrying in %s seconds..."; EvSleep 2;
                          EvPost BASE_URL_api query (PAGE s)]))) /\
    (forall json_loads query,
        failing r3 = true ->
        net s = r1 :: r2 :: r3 :: rest ->
        exists e,
          get_response_api json_loads query s =
            (Err e,
             mkState (PAGE s) (db s) rest
               (trace s ++ [EvPost BASE_URL_api query (PAGE s); EvWarn "%s, retrying in %s seconds...";
                            EvSleep 2; EvPost BASE_URL_api query (PAGE s);
                            EvWarn "%s, retrying in %s seconds..."; EvSleep 2;
                            EvPost BASE_URL_api query (PAGE s)]))).
Proof.
  intros r1 r2 r3 reason text rest [p d n t] F1 F2; simpl.
  repeat split; intros.
  all: subst n; destruct_failing r1; destruct_failing r2;
       try (destruct_failing r3);
       unfold get_response_html, get_response_api, get_response_html_body,
         get_response_api_body; unfold_monad; cbn;
       try (rewrite H); repeat rewrite <- app_assoc; simpl;
       try reflexivity; eexists; reflexivity.
Qed.

Lemma C4_fetch_retry_witness :
  failing RespExc = true /\ failing (RespHttp false "Service Unavailable" "") = true /\
  get_response_html SEARCH_URL "Mobile Phones" (fresh [] [RespExc; RespHttp false "Service Unavailable" ""; RespHttp true "OK" "<html/>"]) =
    (Ok "<html/>",
     mkState 1 [] []
       [EvGet SEARCH_URL "Mobile Phones" 1; EvWarn "%s, retrying in %s seconds...";
        EvSleep 2; EvGet SEARCH_URL "Mobile Phones" 1;
        EvWarn "%s, retrying in %s seconds..."; EvSleep 2;
        EvGet SEARCH_URL "Mobile Phones" 1]).
Proof.
  split; [reflexivity | split; [reflexivity |]].
  exact (proj1 (C4_fetch_retry RespExc (RespHttp false "Service Unavailable" "") RespExc
                  "OK" "<html/>" [] (fresh [] [RespExc; RespHttp false "Service Unavailable" "";
                                              RespHttp true "OK" "<html/>"])
                  eq_refl eq_refl) SEARCH_URL "Mobile Phones" eq_refl).
Defined.

(** ** C5: persisting the same record twice *)

(** C5. Saving a record whose [product_id] is not stored inserts it; saving
    it again writes nothing, logs that it already exists and leaves one
    row with that [product_id]. *)
Theorem C5_save_twice_idempotent :
  forall (d : details) (s : state),
    existsb (fun r => json_eqb (product_id r) (product_id d)) (db s) = false ->
    let '(r1, s1) := save_to_db d s in
    let '(r2, s2) := save_to_db d s1 in
    r1 = Ok tt /\ db s1 = (db s ++ [d])%list /\
    r2 = Ok tt /\ db s2 = db s1 /\
    trace s2 = (trace s1 ++ [EvInfo "Product details for %s already exists in database";
                            EvInfo "Skipping..."])%list /\
    count_pid (product_id d) (db s2) = 1%nat.
Proof.
  intros d [p rows n t] Hnot; simpl in Hnot.
  unfold save_to_db, db_exists, db_insert; unfold_monad; cbn.
  rewrite Hnot; cbn.
  rewrite existsb_app; cbn. rewrite Hnot, json_eqb_refl; cbn.
  repeat split; try reflexivity.
  - rewrite <- app_assoc. reflexivity.
  - unfold count_pid. rewrite filter_app, (existsb_false_filter _ _ Hnot); cbn.
    rewrite json_eqb_refl. reflexivity.
Qed.

Lemma C5_save_twice_idempotent_witness :
  existsb (fun r => json_eqb (product_id r) (product_id record_P1)) (db (fresh [] [])) = false /\
  let '(r1, s1) := save_to_db record_P1 (fresh [] []) in
  let '(r2, s2) := save_to_db record_P1 s1 in
  r1 = Ok tt /\ db s1 = (db (fresh [] []) ++ [record_P1])%list /\
  r2 = Ok tt /\ db s2 = db s1 /\
  trace s2 = (trace s1 ++ [EvInfo "Product details for %s already exists in database";
                          EvInfo "Skipping..."])%list /\
  count_pid (product_id record_P1) (db s2) = 1%nat.
Proof.
  split; [reflexivity |].
  exact (C5_save_twice_idempotent record_P1 (fresh [] []) eq_refl).
Defined.

(** ** C6: the normalisation mapping *)

(** C6. With the page scraper's [BASE_URL] the payload normalises to the
    record of the claim, its url resolved against the site root; the API
    scraper runs the same inherited method with its own [BASE_URL], the
    API endpoint, so there the url is resolved against the API host. *)
Theorem C6_normalize_P1 :
  forall rt ks pr,
    get_product_details BASE_URL_html (payload_P1 rt ks pr) =
      Ok (mkDetails (JStr "P1") (JStr "Phone X") "https://www.flipkart.com/p/p1" rt ks
            [JStr "http://img/1.jpg"] pr (JStr "MOBILES") (JStr "1 Year")
            (JStr "IN_STOCK") "flipkart") /\
    get_product_details BASE_URL_api (payload_P1 rt ks pr) =
      Ok (mkDetails (JStr "P1") (JStr "Phone X") "https://1.rome.api.flipkart.com/p/p1" rt ks
            [JStr "http://img/1.jpg"] pr (JStr "MOBILES") (JStr "1 Year")
            (JStr "IN_STOCK") "flipkart").
Proof. intros; split; reflexivity. Qed.

(** ** C1: a page without its state script *)

(** C1. When the [is_script] element is absent, or its body does not parse
    after the prefix and trailing ';' are stripped, [get_json_response]
    logs an error and returns [{}], and [get_products({})] then raises
    [KeyError('pageDataV4')]: the exception escapes [start] for that page
    instead of the page counting as zero products. *)
Theorem C1_missing_state_script_raises :
  forall find_script json_loads query reason text rest s,
    net s = RespHttp true reason text :: rest ->
    (find_script text = None \/
     exists body, find_script text = Some (Some body) /\
       json_loads (rstrip_semi (py_replace body INITIAL_STATE_PREFIX "")) = None) ->
    exists msg t',
      start_html find_script json_loads query s =
        (Err (KeyError "pageDataV4"), mkState (PAGE s) (db s) rest t') /\
      In (EvError msg) t'.
Proof.
  intros find_script json_loads query reason text rest [p d n t] Hn Hfind;
    simpl in Hn; subst n.
  unfold start_html, get_json_response, get_response_html, get_response_html_body;
    unfold_monad; cbn.
  destruct Hfind as [Hf | [body [Hf Hl]]]; rewrite Hf; cbn.
  - eexists; eexists; split; [reflexivity |].
    apply in_or_app; right; left; reflexivity.
  - unfold INITIAL_STATE_PREFIX in Hl. rewrite Hl; cbn.
    eexists; eexists; split; [reflexivity |].
    apply in_or_app; right; left; reflexivity.
Qed.

Lemma C1_missing_state_script_raises_witness :
  exists msg t',
    start_html no_script no_json "Mobile Phones" (fresh [] [RespHttp true "OK" "<html></html>"]) =
      (Err (KeyError "pageDataV4"), mkState 1 [] [] t') /\ In (EvError msg) t'.
Proof.
  exact (C1_missing_state_script_raises no_script no_json "Mobile Phones" "OK" "<html></html>" []
           (fresh [] [RespHttp true "OK" "<html></html>"]) eq_refl (or_introl eq_refl)).
Defined.

(** ** C2: a payload without an identifier *)

Lemma save_to_db_ok : forall d s, exists s', save_to_db d s = (Ok tt, s').
Proof.
  intros d s. unfold save_to_db, db_exists, db_insert; unfold_monad.
  destruct (existsb _ _); cbn; eexists; reflexivity.
Qed.

Lemma get_product_details_no_id :
  forall base kvs, assoc "id" kvs = None ->
    get_product_details base (JObj kvs) = Err (KeyError "id").
Proof. intros base kvs H. unfold get_product_details; cbn. rewrite H. reflexivity. Qed.

(** C2 (as the code does it). The per-record loop of [start] has no guard:
    a payload without ["id"] raises [KeyError('id')]; the payloads before
    it have been normalised and saved, the ones after it are not processed,
    and the exception leaves the page's processing. *)
Theorem C2_malformed_payload_stops_page :
  forall base pre kvs post s,
    Forall (fun p => exists d, get_product_details base p = Ok d) pre ->
    assoc "id" kvs = None ->
    exists s1,
      persist_all base pre s = (Ok tt, s1) /\
      persist_all base (pre ++ JObj kvs :: post) s = (Err (KeyError "id"), s1).
Proof.
  intros base pre kvs post s Hpre Hid.
  revert s; induction Hpre as [| p pre [d Hd] _ IH]; intros s; cbn.
  - exists s. unfold mret, mbind, lift. rewrite get_product_details_no_id by exact Hid.
    split; reflexivity.
  - destruct (save_to_db_ok d s) as [s' Hs].
    unfold mbind at 1 4, lift. rewrite Hd.
    unfold mbind at 1 2. rewrite Hs.
    exact (IH s').
Qed.

Lemma C2_malformed_payload_stops_page_witness :
  exists s1,
    persist_all BASE_URL_html [payload_P1 JNull JNull JNull] (fresh [] []) = (Ok tt, s1) /\
    persist_all BASE_URL_html ([payload_P1 JNull JNull JNull] ++ JObj payload_P1_no_id_kvs :: [payload_P2])
      (fresh [] []) = (Err (KeyError "id"), s1).
Proof.
  apply (C2_malformed_payload_stops_page BASE_URL_html [payload_P1 JNull JNull JNull]
           payload_P1_no_id_kvs [payload_P2] (fresh [] [])).
  - constructor; [eexists; reflexivity | constructor].
  - reflexivity.
Defined.

(** C2 fails: a page whose three payloads start with one lacking ["id"]
    persists no record, and [start] raises. *)
Lemma C2_counterexample :
  let '(r, s') :=
    start_html script_body
      (loads_to (html_doc [slot_of (JObj payload_P1_no_id_kvs);
                           slot_of (payload_P1 JNull JNull JNull); slot_of payload_P2]))
      "Mobile Phones" (fresh [] [RespHttp true "OK" "<html/>"]) in
  r = Err (KeyError "id") /\ db s' = [].
Proof. vm_compute. split; reflexivity. Qed.

(** ** The page counter is only written by the driver *)

Lemma pp_bind {A B} (m : M A) (f : A -> M B) :
  preserves_page m -> (forall a, preserves_page (f a)) -> preserves_page (mbind m f).
Proof.
  intros Hm Hf s. unfold mbind. specialize (Hm s).
  destruct (m s) as [[a | e] s']; simpl in *; [rewrite Hf |]; exact Hm.
Qed.

Lemma pp_catch {A} (m : M A) (h : exc -> M A) :
  preserves_page m -> (forall e, preserves_page (h e)) -> preserves_page (catch m h).
Proof.
  intros Hm Hh s. unfold catch. specialize (Hm s).
  destruct (m s) as [[a | e] s']; simpl in *; [| rewrite Hh]; exact Hm.
Qed.

Lemma pp_ret {A} (a : A) : preserves_page (mret a).
Proof. intros s; reflexivity. Qed.
Lemma pp_raise {A} (e : exc) : preserves_page (@raise A e).
Proof. intros s; reflexivity. Qed.
Lemma pp_lift {A} (r : res A) : preserves_page (lift r).
Proof. intros s; destruct r; reflexivity. Qed.
Lemma pp_emit ev : preserves_page (emit ev).
Proof. intros s; reflexivity. Qed.
Lemma pp_get_page : preserves_page get_page.
Proof. intros s; reflexivity. Qed.
Lemma pp_next_response : preserves_page next_response.
Proof. intros s; unfold next_response; destruct (net s); reflexivity. Qed.
Lemma pp_db_exists pid : preserves_page (db_exists pid).
Proof. intros s; reflexivity. Qed.
Lemma pp_db_insert d : preserves_page (db_insert d).
Proof. intros s; reflexivity. Qed.

Create HintDb page_db.
#[local] Hint Resolve pp_ret pp_raise pp_lift pp_emit pp_get_page pp_next_response
  pp_db_exists pp_db_insert : page_db.

Ltac solve_pp :=
  repeat first
    [ progress (auto with page_db)
    | apply pp_bind; intros
    | apply pp_catch; intros
    | match goal with
      | |- preserves_page (match ?x with _ => _ end) => destruct x
      | |- preserves_page (if ?x then _ else _) => destruct x
      end ].

Lemma pp_retry_loop {A} n delay (f : M A) :
  preserves_page f -> preserves_page (retry_loop n delay f).
Proof.
  revert delay; induction n as [| n IH]; intros delay Hf; simpl; [exact Hf |].
  unfold sleep; solve_pp; auto.
Qed.

Lemma pp_persist_all base ps : preserves_page (persist_all base ps).
Proof.
  induction ps as [| p ps IH]; simpl; unfold save_to_db; solve_pp; auto.
Qed.

#[local] Hint Resolve pp_retry_loop pp_persist_all : page_db.

Lemma start_html_preserves_page find_script json_loads query :
  preserves_page (start_html find_script json_loads query).
Proof.
  unfold start_html, get_json_response, get_response_html, get_response_html_body, retry.
  solve_pp; apply pp_retry_loop; solve_pp.
Qed.

Lemma start_api_preserves_page json_loads query :
  preserves_page (start_api json_loads query).
Proof.
  unfold start_api, get_response_api, get_response_api_body, retry.
  solve_pp; apply pp_retry_loop; solve_pp.
Qed.

(** ** The pagination loop *)

Lemma state_eta : forall s, mkState (PAGE s) (db s) (net s) (trace s) = s.
Proof. intros []; reflexivity. Qed.

Section Driver.

Variable cfg : config.
Variable start : M unit.
Hypothesis start_pp : preserves_page start.

Lemma while_pages_page :
  forall k s s', PAGE s + Z.of_nat k = MAX_PAGES cfg + 1 ->
    while_pages cfg start k s = (Ok tt, s') -> PAGE s' = MAX_PAGES cfg + 1.
Proof.
  induction k as [| k IH]; intros [p d n t] s' Hk Hrun; cbn in Hk.
  - cbn in Hrun. injection Hrun as <-. cbn. lia.
  - cbn [while_pages] in Hrun.
    assert (Hle : (p <=? MAX_PAGES cfg) = true) by (apply Z.leb_le; lia).
    unfold get_page, set_page, emit, sleep, mbind in Hrun; cbn in Hrun.
    rewrite Hle in Hrun.
    pose proof (start_pp (mkState p d n (t ++ [EvInfoZ "Fetching page %s" [p]]))) as Hp.
    destruct (start _) as [[[] | e] s2]; [| discriminate].
    cbn in Hp, Hrun. rewrite Hp in Hrun.
    eapply IH; [| exact Hrun]; cbn; lia.
Qed.

End Driver.

(** ** C3: the pagination bound *)

Ltac step_start start Hpp :=
  repeat match goal with
  | |- context [start ?q ?x] =>
      let Hp := fresh "Hp" in
      pose proof (Hpp q x) as Hp;
      destruct (start q x) as [[[] | ?e] ?s2]; cbn in Hp |- *;
      try rewrite Hp; cbn
  end.

(** C3. With pagination enabled and [MAX_PAGES = 3], a run from a fresh
    counter is exactly: three iterations, calling [start] with [PAGE] set
    to 1, 2 and 3 in turn, each followed by a 5-unit sleep; with
    pagination disabled, [start] is called exactly once.  [start] is any
    page step that leaves [PAGE] alone, as both [start] methods do. *)
Theorem C3_pagination_bound :
  forall start : string -> M unit,
    (forall q, preserves_page (start q)) ->
    (forall s, PAGE s = 1 ->
      run_html cfg_max3 start s =
        (emit (EvInfo "Starting Flipkart Scraper...") ;;
         emit (EvInfo "PAGINATION ENABLED") ;;
         emit (EvInfoZ "Starting from page %s -> %s" [1; 4]) ;;
         page_iteration (start "Mobile Phones") 1 ;;
         page_iteration (start "Mobile Phones") 2 ;;
         page_iteration (start "Mobile Phones") 3 ;;
         emit (EvInfo "All pages fetched") ;;
         emit (EvInfo "All products saved to database") ;;
         emit (EvInfo "Flipkart Scraper Completed")) s) /\
    (forall m s,
      run_html (mkConfig false m) start s =
        (emit (EvInfo "Starting Flipkart Scraper...") ;;
         start "Mobile Phones" ;;
         emit (EvInfo "All products saved to database") ;;
         emit (EvInfo "Flipkart Scraper Completed")) s).
Proof.
  intros start Hpp; split.
  - intros [p d n t] Hp0; cbn in Hp0; subst p.
    unfold run_html, page_iteration, cfg_max3, pages_left; cbn [ENABLE_PAGINATION MAX_PAGES].
    unfold mbind, emit, get_page, set_page, sleep, mret; cbn.
    change (Pos.to_nat 3) with 3%nat.
    cbv [while_pages mbind emit get_page set_page sleep mret]; cbn.
    step_start start Hpp; reflexivity.
  - intros m s; reflexivity.
Qed.

Lemma C3_pagination_bound_witness :
  preserves_page (start_html script_body (loads_to (html_doc [])) "Mobile Phones") /\
  run_html cfg_max3 (start_html script_body (loads_to (html_doc []))) (fresh [] []) =
    (emit (EvInfo "Starting Flipkart Scraper...") ;;
     emit (EvInfo "PAGINATION ENABLED") ;;
     emit (EvInfoZ "Starting from page %s -> %s" [1; 4]) ;;
     page_iteration (start_html script_body (loads_to (html_doc [])) "Mobile Phones") 1 ;;
     page_iteration (start_html script_body (loads_to (html_doc [])) "Mobile Phones") 2 ;;
     page_iteration (start_html script_body (loads_to (html_doc [])) "Mobile Phones") 3 ;;
     emit (EvInfo "All pages fetched") ;;
     emit (EvInfo "All products saved to database") ;;
     emit (EvInfo "Flipkart Scraper Completed")) (fresh [] []).
Proof.
  split; [apply start_html_preserves_page |].
  exact (proj1 (C3_pagination_bound (start_html script_body (loads_to (html_doc [])))
                  (start_html_preserves_page script_body (loads_to (html_doc []))))
               (fresh [] []) eq_refl).
Defined.

(** ** C8: an exhausted fetch ends the run *)

Ltac run_fetch :=
  unfold start_html, start_api, get_response_html, get_response_api,
    get_response_html_body, get_response_api_body, retry;
  cbv [retry_loop catch mbind mret raise lift emit sleep get_page set_page next_response];
  cbn.

(** C8. If the fetch of the current page exhausts its three attempts, the
    exception leaves the pagination loop at that page, whichever page it
    is and however many pages are left: [PAGE] is not advanced, no pacing
    sleep follows and no later page is requested.  A run started at such
    a page raises the same way. *)
Theorem C8_fetch_exhaustion_ends_run :
  forall cfg r1 r2 r3 rest s,
    failing r1 = true -> failing r2 = true -> failing r3 = true ->
    net s = r1 :: r2 :: r3 :: rest -> PAGE s <= MAX_PAGES cfg ->
    (forall find_script json_loads k, exists e,
       while_pages cfg (start_html find_script json_loads "Mobile Phones") (S k) s =
         (Err e, mkState (PAGE s) (db s) rest
                   (trace s ++ EvInfoZ "Fetching page %s" [PAGE s]
                      :: failed_fetch (EvGet SEARCH_URL "Mobile Phones") (PAGE s)))) /\
    (forall json_loads k, exists e,
       while_pages cfg (start_api json_loads "Mobile Phones") (S k) s =
         (Err e, mkState (PAGE s) (db s) rest
                   (trace s ++ EvInfoZ "Fetching page %s" [PAGE s]
                      :: failed_fetch (EvPost BASE_URL_api "Mobile Phones") (PAGE s)))) /\
    (forall find_script json_loads, ENABLE_PAGINATION cfg = true -> exists e,
       run_html cfg (start_html find_script json_loads) s =
         (Err e, mkState (PAGE s) (db s) rest
                   (trace s ++ EvInfo "Starting Flipkart Scraper..."
                      :: EvInfo "PAGINATION ENABLED"
                      :: EvInfoZ "Starting from page %s -> %s" [PAGE s; PAGE s + MAX_PAGES cfg]
                      :: EvInfoZ "Fetching page %s" [PAGE s]
                      :: failed_fetch (EvGet SEARCH_URL "Mobile Phones") (PAGE s)))).
Proof.
  intros cfg r1 r2 r3 rest [p d n t] F1 F2 F3 Hn Hle; cbn in Hn, Hle |- *; subst n.
  apply Z.leb_le in Hle.
  repeat split; intros.
  - cbn [while_pages]. run_fetch. rewrite Hle.
    destruct_failing r1; destruct_failing r2; destruct_failing r3; cbn;
      repeat rewrite <- app_assoc; eexists; reflexivity.
  - cbn [while_pages]. run_fetch. rewrite Hle.
    destruct_failing r1; destruct_failing r2; destruct_failing r3; cbn;
      repeat rewrite <- app_assoc; eexists; reflexivity.
  - unfold run_html. rewrite H.
    assert (Hk : exists k, pages_left cfg p = S k).
    { exists (Nat.pred (pages_left cfg p)). unfold pages_left.
      apply Z.leb_le in Hle. lia. }
    destruct Hk as [k Hk].
    cbv [mbind emit get_page]; cbn. rewrite Hk. cbn [while_pages].
    run_fetch. rewrite Hle.
    destruct_failing r1; destruct_failing r2; destruct_failing r3; cbn;
      repeat rewrite <- app_assoc; eexists; reflexivity.
Qed.

Lemma C8_fetch_exhaustion_ends_run_witness :
  exists e,
    run_html cfg_html (start_html no_script no_json) (fresh [] [RespExc; RespExc; RespExc]) =
      (Err e, mkState 1 [] []
                ([] ++ EvInfo "Starting Flipkart Scraper..."
                   :: EvInfo "PAGINATION ENABLED"
                   :: EvInfoZ "Starting from page %s -> %s" [1; 1 + 10]
                   :: EvInfoZ "Fetching page %s" [1]
                   :: failed_fetch (EvGet SEARCH_URL "Mobile Phones") 1)).
Proof.
  destruct (C8_fetch_exhaustion_ends_run cfg_html RespExc RespExc RespExc []
              (fresh [] [RespExc; RespExc; RespExc]) eq_refl eq_refl eq_refl eq_refl
              ltac:(cbn; lia)) as [_ [_ H]].
  exact (H no_script no_json eq_refl).
Defined.

(** ** C9: the page counter is instance state that is never reset *)

(** C9. A run with pagination enabled that starts from a fresh counter
    and completes leaves [PAGE = MAX_PAGES + 1]; a second [run] on the same
    instance then iterates over no page: it only logs, whatever [start]
    would do. *)
Theorem C9_page_counter_not_reset :
  forall (cfg : config) (start : string -> M unit) s s',
    (forall q, preserves_page (start q)) ->
    ENABLE_PAGINATION cfg = true -> 1 <= MAX_PAGES cfg -> PAGE s = 1 ->
    run_html cfg start s = (Ok tt, s') ->
    PAGE s' = MAX_PAGES cfg + 1 /\
    (forall start' : string -> M unit,
       run_html cfg start' s' =
         (Ok tt, mkState (PAGE s') (db s') (net s')
                   (trace s' ++ [EvInfo "Starting Flipkart Scraper...";
                                 EvInfo "PAGINATION ENABLED";
                                 EvInfoZ "Starting from page %s -> %s"
                                   [MAX_PAGES cfg + 1; MAX_PAGES cfg + 1 + MAX_PAGES cfg];
                                 EvInfo "All pages fetched";
                                 EvInfo "All products saved to database";
                                 EvInfo "Flipkart Scraper Completed"]))).
Proof.
  intros cfg start [p d n t] s' Hpp Hen Hmax Hp Hrun; cbn in Hp; subst p.
  assert (Hpage : PAGE s' = MAX_PAGES cfg + 1).
  { unfold run_html in Hrun. rewrite Hen in Hrun.
    cbv [mbind emit get_page] in Hrun; cbn [PAGE db net trace] in Hrun.
    destruct (while_pages _ _ _ _) as [[[] | e] s2] eqn:E in Hrun; [| discriminate].
    injection Hrun as <-. cbn [PAGE].
    refine (while_pages_page cfg (start "Mobile Phones") (Hpp _) _ _ _ _ E).
    cbn [PAGE]. unfold pages_left. rewrite Z2Nat.id by lia. lia. }
  split; [exact Hpage |].
  intros start'. destruct s' as [p' d' n' t']; cbn in Hpage |- *; subst p'.
  unfold run_html. rewrite Hen.
  cbv [mbind emit get_page]; cbn.
  replace (pages_left cfg (MAX_PAGES cfg + 1)) with 0%nat
    by (unfold pages_left; replace (MAX_PAGES cfg - (MAX_PAGES cfg + 1) + 1) with 0 by lia;
        reflexivity).
  cbn. repeat rewrite <- app_assoc. reflexivity.
Qed.

Lemma C9_page_counter_not_reset_witness :
  let s' := snd (run_html cfg_html (start_html script_body (loads_to (html_doc [])))
                  (fresh [] html_run_net)) in
  PAGE s' = 11 /\
  run_html cfg_html no_start s' = (Ok tt, mkState (PAGE s') (db s') (net s')
                   (trace s' ++ [EvInfo "Starting Flipkart Scraper...";
                                 EvInfo "PAGINATION ENABLED";
                                 EvInfoZ "Starting from page %s -> %s" [10 + 1; 10 + 1 + 10];
                                 EvInfo "All pages fetched";
                                 EvInfo "All products saved to database";
                                 EvInfo "Flipkart Scraper Completed"])).
Proof.
  intros s'.
  destruct (C9_page_counter_not_reset cfg_html
              (start_html script_body (loads_to (html_doc []))) (fresh [] html_run_net) s'
              (start_html_preserves_page script_body (loads_to (html_doc [])))
              eq_refl ltac:(cbn; lia) eq_refl ltac:(vm_compute; reflexivity)) as [H1 H2].
  split; [exact H1 | exact (H2 no_start)].
Defined.

(** ** C7 and C10: which slots the extractors take *)

Lemma rbind_ok {A B} (r : res A) (f : A -> res B) b :
  rbind r f = Ok b -> exists a, r = Ok a /\ f a = Ok b.
Proof. destruct r; simpl; [eauto | discriminate]. Qed.

Lemma getitem_ok x k v : getitem x k = Ok v -> obj_get x k = Some v.
Proof.
  destruct x; simpl; try discriminate.
  destruct (assoc k kvs); congruence.
Qed.

Lemma getitem_some x k v : obj_get x k = Some v -> getitem x k = Ok v.
Proof. destruct x; simpl; try discriminate. intros ->; reflexivity. Qed.

Lemma slot_step_ok slot o :
  slot_step slot = Ok o ->
  (o = None /\ qualifies slot = false) \/
  (exists v, o = Some v /\ qualifies slot = true /\ slot_value slot = Some v).
Proof.
  unfold slot_step, qualifies, slot_value. intros H.
  apply rbind_ok in H as [st [Hst H]]. apply getitem_ok in Hst. rewrite Hst.
  destruct (py_eq_str st "WIDGET") eqn:Ew; [| injection H as <-; left; auto].
  apply rbind_ok in H as [w [Hw H]]. apply getitem_ok in Hw. rewrite Hw.
  apply rbind_ok in H as [t [Ht H]]. apply getitem_ok in Ht. cbn. rewrite Ht.
  destruct (py_eq_str t "PRODUCT_SUMMARY") eqn:Et; [| injection H as <-; left; auto].
  right.
  apply rbind_ok in H as [w' [Hw' H]]. apply getitem_ok in Hw'.
  rewrite Hw in Hw'; injection Hw' as <-.
  apply rbind_ok in H as [d [Hd H]]. apply getitem_ok in Hd. rewrite Hd.
  apply rbind_ok in H as [ps [Hps H]]. apply getitem_ok in Hps. rewrite Hps.
  apply rbind_ok in H as [p0 [Hp0 H]].
  apply rbind_ok in H as [pi [Hpi H]].
  apply rbind_ok in H as [v [Hv H]]. injection H as <-.
  exists v; split; [reflexivity | split; [reflexivity |]].
  destruct ps as [| | | s | [| x xs] | kvs]; simpl in Hp0; try discriminate.
  - destruct s; [discriminate |]. injection Hp0 as <-. discriminate Hpi.
  - injection Hp0 as <-. apply getitem_ok in Hpi. rewrite Hpi.
    apply getitem_ok in Hv. exact Hv.
Qed.

Lemma slot_step_total slot : slot_wf slot -> exists o, slot_step slot = Ok o.
Proof.
  intros [[t [Ht Hw]] Hq]. unfold slot_step.
  rewrite (getitem_some _ _ _ Ht); cbn [rbind].
  destruct (py_eq_str t "WIDGET") eqn:Ew; [| eauto].
  destruct (Hw eq_refl) as [w [t' [Hw1 Ht']]].
  rewrite (getitem_some _ _ _ Hw1); cbn [rbind].
  rewrite (getitem_some _ _ _ Ht'); cbn [rbind].
  destruct (py_eq_str t' "PRODUCT_SUMMARY") eqn:Ep; [| eauto].
  assert (Hqs : qualifies slot = true)
    by (unfold qualifies; rewrite Ht, Ew, Hw1; cbn; rewrite Ht', Ep; reflexivity).
  destruct (Hq Hqs) as [v Hv]. unfold slot_value in Hv. rewrite Hw1 in Hv.
  destruct (obj_get w "data") as [d |] eqn:Ed; [| discriminate].
  destruct (obj_get d "products") as [ps |] eqn:Eps; [| discriminate].
  destruct ps as [| | | | [| p0 ps'] |]; try discriminate.
  destruct (obj_get p0 "productInfo") as [pi |] eqn:Epi; [| discriminate].
  rewrite (getitem_some _ _ _ Ed); cbn [rbind].
  rewrite (getitem_some _ _ _ Eps); cbn [rbind getitem0].
  rewrite (getitem_some _ _ _ Epi); cbn [rbind].
  rewrite (getitem_some _ _ _ Hv); cbn [rbind].
  eauto.
Qed.

Lemma collect_slots_ok sl ps :
  collect_slots sl = Ok ps -> map Some ps = map slot_value (filter qualifies sl).
Proof.
  revert ps; induction sl as [| s sl IH]; intros ps H; cbn in H.
  - injection H as <-. reflexivity.
  - apply rbind_ok in H as [o [Ho H]]. apply rbind_ok in H as [rest [Hr H]].
    injection H as <-. specialize (IH _ Hr).
    destruct (slot_step_ok _ _ Ho) as [[-> Hq] | [v [-> [Hq Hv]]]]; cbn; rewrite Hq.
    + exact IH.
    + cbn. rewrite Hv, IH. reflexivity.
Qed.

Lemma collect_slots_total sl : Forall slot_wf sl -> exists ps, collect_slots sl = Ok ps.
Proof.
  induction 1 as [| s sl Hs _ [ps IH]]; cbn; [eauto |].
  destruct (slot_step_total s Hs) as [o Ho]. rewrite Ho; cbn. rewrite IH; cbn. eauto.
Qed.

Lemma collect_items_ok items ps :
  collect_items items = Ok ps ->
  exists lss, iter_all items = Some lss /\
    map Some ps = map slot_value (filter qualifies (concat lss)).
Proof.
  revert ps; induction items as [| it its IH]; intros ps H; cbn in H.
  - injection H as <-. exists []; split; reflexivity.
  - apply rbind_ok in H as [sl [Hsl H]]. apply rbind_ok in H as [a [Ha H]].
    apply rbind_ok in H as [b [Hb H]]. injection H as <-.
    destruct (IH _ Hb) as [lss [Hl Hm]].
    exists (sl :: lss); cbn. rewrite Hsl, Hl; split; [reflexivity |].
    rewrite filter_app, !map_app, (collect_slots_ok _ _ Ha), Hm. reflexivity.
Qed.

Lemma collect_items_total items lss :
  iter_all items = Some lss -> Forall slot_wf (concat lss) ->
  exists ps, collect_items items = Ok ps.
Proof.
  revert lss; induction items as [| it its IH]; intros lss Hl Hwf; cbn; [eauto |].
  cbn in Hl.
  destruct (py_iter it) as [sl | e]; cbn [rbind res_to_option] in Hl |- *; [| discriminate].
  destruct (iter_all its) as [lss' |]; [| discriminate].
  injection Hl as <-. cbn in Hwf. apply Forall_app in Hwf as [Hsl Hrest].
  destruct (collect_slots_total _ Hsl) as [a Ha]. rewrite Ha; cbn.
  destruct (IH lss' eq_refl Hrest) as [b Hb]. rewrite Hb; cbn. eauto.
Qed.

Lemma get_products_html_ok doc ps :
  get_products_html doc = Ok ps ->
  exists slots, html_slots doc = Some slots /\
    map Some ps = map slot_value (filter qualifies slots).
Proof.
  unfold get_products_html, html_slots. intros H.
  apply rbind_ok in H as [p [Hp H]]. apply getitem_ok in Hp. rewrite Hp.
  apply rbind_ok in H as [pg [Hpg H]]. apply getitem_ok in Hpg. rewrite Hpg.
  apply rbind_ok in H as [data [Hd H]]. apply getitem_ok in Hd. rewrite Hd.
  apply rbind_ok in H as [items [Hi H]].
  destruct data as [| | | | | kvs]; try discriminate. injection Hi as <-.
  destruct (collect_items_ok _ _ H) as [lss [Hl Hm]].
  rewrite Hl. eexists; split; [reflexivity | exact Hm].
Qed.

Lemma get_products_html_total doc slots :
  html_slots doc = Some slots -> Forall slot_wf slots ->
  exists ps, get_products_html doc = Ok ps.
Proof.
  unfold get_products_html, html_slots. intros H Hwf.
  destruct (obj_get doc "pageDataV4") as [p |] eqn:Hp; [| discriminate].
  destruct (obj_get p "page") as [pg |] eqn:Hpg; [| discriminate].
  destruct (obj_get pg "data") as [[| | | | | kvs] |] eqn:Hd; try discriminate.
  rewrite (getitem_some _ _ _ Hp); cbn [rbind].
  rewrite (getitem_some _ _ _ Hpg); cbn [rbind].
  rewrite (getitem_some _ _ _ Hd); cbn [rbind py_values].
  destruct (iter_all (map snd kvs)) as [lss |] eqn:Hl; [| discriminate].
  injection H as <-. exact (collect_items_total _ _ Hl Hwf).
Qed.

Lemma get_products_api_ok doc ps :
  get_products_api doc = Ok ps ->
  exists slots, api_slots doc = Some slots /\
    map Some ps = map slot_value (filter qualifies slots).
Proof.
  unfold get_products_api, api_slots. intros H.
  apply rbind_ok in H as [r [Hr H]]. apply getitem_ok in Hr. rewrite Hr.
  apply rbind_ok in H as [sl [Hsl H]]. apply getitem_ok in Hsl. rewrite Hsl.
  apply rbind_ok in H as [slots [Hs H]]. rewrite Hs.
  eexists; split; [reflexivity | exact (collect_slots_ok _ _ H)].
Qed.

Lemma get_products_api_total doc slots :
  api_slots doc = Some slots -> Forall slot_wf slots ->
  exists ps, get_products_api doc = Ok ps.
Proof.
  unfold get_products_api, api_slots. intros H Hwf.
  destruct (obj_get doc "RESPONSE") as [r |] eqn:Hr; [| discriminate].
  destruct (obj_get r "slots") as [sl |] eqn:Hsl; [| discriminate].
  rewrite (getitem_some _ _ _ Hr); cbn [rbind].
  rewrite (getitem_some _ _ _ Hsl); cbn [rbind].
  destruct (py_iter sl) as [l | e]; cbn in H; [| discriminate].
  injection H as <-. exact (collect_slots_total _ Hwf).
Qed.

Lemma one_selected (ps : list json) (l : list json) :
  map Some ps = map slot_value l -> length l = 1%nat -> exists v, ps = [v].
Proof.
  intros H Hl. apply (f_equal (@length _)) in H. rewrite !length_map, Hl in H.
  destruct ps as [| v [| w ps]]; cbn in H; try discriminate. eauto.
Qed.

(** C7. In both extractors, when extraction succeeds its result is, in
    traversal order, the nested product value of exactly the slots that
    qualify (slot-type tag [WIDGET], widget type tag [PRODUCT_SUMMARY]).
    Hence a document whose slots carry their tags and which has exactly
    one qualifying slot, with its product value, yields exactly one
    payload. *)
Theorem C7_extraction_selects_qualifying_slots :
  (forall doc ps, get_products_html doc = Ok ps ->
     exists slots, html_slots doc = Some slots /\
       map Some ps = map slot_value (filter qualifies slots)) /\
  (forall doc ps, get_products_api doc = Ok ps ->
     exists slots, api_slots doc = Some slots /\
       map Some ps = map slot_value (filter qualifies slots)) /\
  (forall doc slots, html_slots doc = Some slots -> Forall slot_wf slots ->
     length (filter qualifies slots) = 1%nat ->
     exists v, get_products_html doc = Ok [v] /\
       exists s, In s slots /\ qualifies s = true /\ slot_value s = Some v) /\
  (forall doc slots, api_slots doc = Some slots -> Forall slot_wf slots ->
     length (filter qualifies slots) = 1%nat ->
     exists v, get_products_api doc = Ok [v] /\
       exists s, In s slots /\ qualifies s = true /\ slot_value s = Some v).
Proof.
  split; [exact get_products_html_ok |].
  split; [exact get_products_api_ok |].
  split; intros doc slots Hs Hwf H1.
  - destruct (get_products_html_total _ _ Hs Hwf) as [ps Hps].
    destruct (get_products_html_ok _ _ Hps) as [slots' [Hs' Hm]].
    rewrite Hs in Hs'; injection Hs' as <-.
    destruct (one_selected _ _ Hm H1) as [v ->].
    exists v; split; [exact Hps |].
    destruct (filter qualifies slots) as [| s [|]] eqn:Ef; cbn in H1, Hm; try discriminate.
    injection Hm as Hv. exists s.
    assert (Hin : In s (filter qualifies slots)) by (rewrite Ef; left; reflexivity).
    apply filter_In in Hin as [Hin Hq]. auto.
  - destruct (get_products_api_total _ _ Hs Hwf) as [ps Hps].
    destruct (get_products_api_ok _ _ Hps) as [slots' [Hs' Hm]].
    rewrite Hs in Hs'; injection Hs' as <-.
    destruct (one_selected _ _ Hm H1) as [v ->].
    exists v; split; [exact Hps |].
    destruct (filter qualifies slots) as [| s [|]] eqn:Ef; cbn in H1, Hm; try discriminate.
    injection Hm as Hv. exists s.
    assert (Hin : In s (filter qualifies slots)) by (rewrite Ef; left; reflexivity).
    apply filter_In in Hin as [Hin Hq]. auto.
Qed.

Lemma C7_extraction_selects_qualifying_slots_witness :
  exists v, get_products_html (html_doc [other_slot; slot_of (payload_P1 JNull JNull JNull)]) = Ok [v] /\
    exists s, In s [other_slot; slot_of (payload_P1 JNull JNull JNull)] /\
      qualifies s = true /\ slot_value s = Some v.
Proof.
  destruct C7_extraction_selects_qualifying_slots as [_ [_ [H _]]].
  apply H.
  - reflexivity.
  - repeat constructor.
    + exists (JStr "WIDGET"); split; [reflexivity |]. intros _.
      do 2 eexists; split; reflexivity.
    + discriminate.
    + exists (JStr "WIDGET"); split; [reflexivity |]. intros _.
      do 2 eexists; split; reflexivity.
    + intros _. eexists; reflexivity.
  - reflexivity.
Defined.

(** C10. In both extractors a qualifying slot without a usable product
    value (no product list, an empty one, or a first entry without
    [productInfo.value]) makes the whole extraction raise; conversely,
    extraction succeeds when every slot carries its tags and every
    qualifying slot its product value. *)
Theorem C10_qualifying_slot_without_value_raises :
  (forall doc slots s, html_slots doc = Some slots -> In s slots ->
     qualifies s = true -> slot_value s = None ->
     exists e, get_products_html doc = Err e) /\
  (forall doc slots s, api_slots doc = Some slots -> In s slots ->
     qualifies s = true -> slot_value s = None ->
     exists e, get_products_api doc = Err e) /\
  (forall doc slots, html_slots doc = Some slots -> Forall slot_wf slots ->
     exists ps, get_products_html doc = Ok ps) /\
  (forall doc slots, api_slots doc = Some slots -> Forall slot_wf slots ->
     exists ps, get_products_api doc = Ok ps).
Proof.
  split; [| split; [| split; [exact get_products_html_total | exact get_products_api_total]]];
    intros doc slots s Hs Hin Hq Hv.
  - destruct (get_products_html doc) as [ps | e] eqn:E; [exfalso | eauto].
    destruct (get_products_html_ok _ _ E) as [slots' [Hs' Hm]].
    rewrite Hs in Hs'; injection Hs' as <-.
    assert (Hn : In None (map slot_value (filter qualifies slots))).
    { rewrite <- Hv. apply in_map, filter_In. auto. }
    rewrite <- Hm in Hn. apply in_map_iff in Hn as [x [Hx _]]. discriminate.
  - destruct (get_products_api doc) as [ps | e] eqn:E; [exfalso | eauto].
    destruct (get_products_api_ok _ _ E) as [slots' [Hs' Hm]].
    rewrite Hs in Hs'; injection Hs' as <-.
    assert (Hn : In None (map slot_value (filter qualifies slots))).
    { rewrite <- Hv. apply in_map, filter_In. auto. }
    rewrite <- Hm in Hn. apply in_map_iff in Hn as [x [Hx _]]. discriminate.
Qed.

Lemma C10_qualifying_slot_without_value_raises_witness :
  exists e, get_products_api (api_doc [slot_of (payload_P1 JNull JNull JNull); empty_products_slot]) = Err e.
Proof.
  destruct C10_qualifying_slot_without_value_raises as [_ [H _]].
  apply (H _ [slot_of (payload_P1 JNull JNull JNull); empty_products_slot] empty_products_slot).
  - reflexivity.
  - right; left; reflexivity.
  - reflexivity.
  - reflexivity.
Defined.

(** * Further properties of the code *)

(** ** Normalisation *)



(** ** Persistence *)

Lemma save_to_db_db d s :
  exists s', save_to_db d s = (Ok tt, s') /\ PAGE s' = PAGE s /\ net s' = net s /\
    db s' = if pid_in (db s) (product_id d) then db s else (db s ++ [d])%list.
Proof.
  unfold save_to_db, db_exists, db_insert, pid_in; unfold_monad.
  destruct (existsb _ _); cbn; eexists; repeat split.
Qed.

Lemma persist_all_db base ps s :
  match map_res (get_product_details base) ps with
  | Ok ds => exists s', persist_all base ps s = (Ok tt, s') /\
               db s' = add_new (db s) ds /\ net s' = net s /\ PAGE s' = PAGE s
  | Err e => fst (persist_all base ps s) = Err e
  end.
Proof.
  revert s; induction ps as [| p ps IH]; intros s; cbn [persist_all map_res].
  - eexists; repeat split.
  - destruct (get_product_details base p) as [d | e]; cbn [rbind]; [| reflexivity].
    destruct (save_to_db_db d s) as [s1 [Hs1 [Hp1 [Hn1 Hd1]]]].
    cbv [mbind lift]. rewrite Hs1.
    specialize (IH s1).
    destruct (map_res (get_product_details base) ps) as [ds | e]; cbn.
    + destruct IH as [s' [Hr [Hd [Hn Hp]]]]. exists s'.
      rewrite Hr, Hd, Hd1, Hn, Hp. repeat split; congruence.
    + exact IH.
Qed.

Lemma uniq_from_snoc seen rows d :
  uniq_from seen (rows ++ [d]) <->
  uniq_from seen rows /\ pid_in (seen ++ rows) (product_id d) = false.
Proof.
  revert seen; induction rows as [| r rows IH]; intros seen; cbn.
  - rewrite app_nil_r. tauto.
  - rewrite IH, <- app_assoc. cbn. tauto.
Qed.

Lemma save_to_db_unique d s s' :
  save_to_db d s = (Ok tt, s') -> pids_unique (db s) ->
  pids_unique (db s') /\ exists new, db s' = (db s ++ new)%list.
Proof.
  intros H Hu. destruct (save_to_db_db d s) as [s1 [Hs1 [_ [_ Hd]]]].
  rewrite Hs1 in H. injection H as <-. rewrite Hd.
  destruct (pid_in (db s) (product_id d)) eqn:E.
  - split; [exact Hu | exists []; rewrite app_nil_r; reflexivity].
  - split; [| eexists; reflexivity].
    unfold pids_unique. apply uniq_from_snoc. split; [exact Hu | exact E].
Qed.

Lemma persist_all_unique base ps s :
  pids_unique (db s) ->
  pids_unique (db (snd (persist_all base ps s))) /\
  exists new, db (snd (persist_all base ps s)) = (db s ++ new)%list.
Proof.
  revert s; induction ps as [| p ps IH]; intros s Hu; cbn [persist_all].
  - split; [exact Hu | exists []; rewrite app_nil_r; reflexivity].
  - destruct (get_product_details base p) as [d | e];
      [| split; [exact Hu | exists []; rewrite app_nil_r; reflexivity]].
    destruct (save_to_db_db d s) as [s1 [Hs1 _]].
    cbv [mbind lift]. rewrite Hs1.
    destruct (save_to_db_unique d s s1 Hs1 Hu) as [Hu1 [n1 Hn1]].
    destruct (IH s1 Hu1) as [Hu2 [n2 Hn2]].
    split; [exact Hu2 |]. exists (n1 ++ n2)%list. rewrite Hn2, Hn1, app_assoc. reflexivity.
Qed.

Lemma pid_in_snoc rows d x :
  pid_in (rows ++ [d]) x = pid_in rows x || json_eqb (product_id d) x.
Proof. unfold pid_in. rewrite existsb_app. cbn. rewrite orb_false_r. reflexivity. Qed.

Lemma add_new_keeps rows ds x :
  pid_in rows x = true -> pid_in (add_new rows ds) x = true.
Proof.
  revert rows; induction ds as [| d ds IH]; intros rows H; cbn; [exact H |].
  apply IH. destruct (pid_in rows (product_id d)); [exact H |].
  rewrite pid_in_snoc, H. reflexivity.
Qed.

Lemma add_new_covers rows ds d :
  In d ds -> pid_in (add_new rows ds) (product_id d) = true.
Proof.
  revert rows; induction ds as [| d' ds IH]; intros rows Hin; [destruct Hin |].
  destruct Hin as [E | Hin]; cbn; [subst d' | apply IH, Hin].
  apply add_new_keeps.
  destruct (pid_in rows (product_id d)) eqn:E; [exact E |].
  rewrite pid_in_snoc, json_eqb_refl, orb_true_r. reflexivity.
Qed.

(** ** Reading the state script *)

Lemma replace_aux_absent fuel old s :
  occurs old s = false -> replace_aux fuel old "" s = s.
Proof.
  revert s; induction fuel as [| fuel IH]; intros s H; [reflexivity |].
  destruct s as [| c s]; [reflexivity |].
  cbn [occurs] in H. apply orb_false_iff in H as [Hp Hs].
  cbn [replace_aux]. rewrite Hp, IH by exact Hs. reflexivity.
Qed.

Lemma str_prefix_app p r : str_prefix p (p ++ r) = true.
Proof. induction p as [| a p IH]; cbn; [reflexivity |]. rewrite Ascii.eqb_refl. exact IH. Qed.

Lemma str_drop_app p r : str_drop (String.length p) (p ++ r) = r.
Proof. induction p as [| a p IH]; cbn; [reflexivity | exact IH]. Qed.

Lemma py_replace_leading a old r :
  occurs (String a old) r = false ->
  py_replace (String a old ++ r) (String a old) "" = r.
Proof.
  intros H. unfold py_replace.
  change (String a old ++ r) with (String a (old ++ r)).
  cbn [String.length replace_aux].
  change (str_prefix (String a old) (String a (old ++ r))) with
    (str_prefix (String a old) (String a old ++ r)).
  change (str_drop (S (String.length old)) (String a (old ++ r))) with
    (str_drop (String.length (String a old)) (String a old ++ r)).
  rewrite str_prefix_app, str_drop_app. cbn [append].
  apply replace_aux_absent, H.
Qed.

Lemma list_ascii_of_string_app s t :
  list_ascii_of_string (s ++ t) = (list_ascii_of_string s ++ list_ascii_of_string t)%list.
Proof. induction s as [| c s IH]; cbn; [reflexivity | rewrite IH; reflexivity]. Qed.

Lemma drop_while_semi_repeat n l :
  drop_while_semi (repeat ";"%char n ++ l)%list = drop_while_semi l.
Proof. induction n as [| n IH]; cbn; [reflexivity | exact IH]. Qed.

Lemma rstrip_semi_semis t n :
  ends_with_semi t = false -> rstrip_semi (t ++ semis n) = t.
Proof.
  unfold rstrip_semi, semis, ends_with_semi. intros H.
  rewrite list_ascii_of_string_app, list_ascii_of_string_of_list_ascii,
    rev_app_distr, rev_repeat, drop_while_semi_repeat.
  destruct (rev (list_ascii_of_string t)) as [| c l] eqn:E.
  - cbn. apply (f_equal (@rev ascii)) in E. rewrite rev_involutive in E. cbn in E.
    rewrite <- (string_of_list_ascii_of_string t), E. reflexivity.
  - cbn. rewrite H, <- E, rev_involutive. apply string_of_list_ascii_of_string.
Qed.

(** ** Extraction errors *)

Lemma slot_step_no_type s :
  obj_get s "slotType" = None ->
  slot_step s = Err (match s with JObj _ => KeyError "slotType" | _ => TypeError end).
Proof.
  unfold slot_step. destruct s as [| | | | | kvs]; cbn; try reflexivity.
  intros ->. reflexivity.
Qed.

Lemma collect_slots_err pre s post e :
  Forall slot_wf pre -> slot_step s = Err e -> collect_slots (pre ++ s :: post) = Err e.
Proof.
  intros Hpre He. induction Hpre as [| x pre Hx _ IH]; cbn.
  - rewrite He. reflexivity.
  - destruct (slot_step_total x Hx) as [o Ho]. rewrite Ho; cbn. rewrite IH. reflexivity.
Qed.

Lemma collect_items_err items lss pre s post e :
  iter_all items = Some lss -> concat lss = (pre ++ s :: post)%list ->
  Forall slot_wf pre -> slot_step s = Err e -> collect_items items = Err e.
Proof.
  revert lss pre; induction items as [| it its IH]; intros lss pre Hl Hc Hpre He.
  - cbn in Hl. injection Hl as <-. cbn in Hc. destruct pre; discriminate.
  - cbn in Hl. cbn [collect_items].
    destruct (py_iter it) as [l | e']; cbn [rbind res_to_option] in Hl |- *; [| discriminate].
    destruct (iter_all its) as [lss' |] eqn:Hl'; [| discriminate].
    injection Hl as <-. cbn in Hc.
    apply app_eq_app in Hc as [m [[Hl1 Hm] | [Hpre1 Hm]]].
    + destruct m as [| x m].
      * rewrite app_nil_r in Hl1. subst l. cbn in Hm.
        destruct (collect_slots_total _ Hpre) as [a Ha]. rewrite Ha; cbn.
        rewrite (IH lss' [] eq_refl (eq_sym Hm) (Forall_nil _) He). reflexivity.
      * injection Hm as <- Hm. subst l.
        rewrite (collect_slots_err _ _ _ _ Hpre He). reflexivity.
    + subst pre. apply Forall_app in Hpre as [Hl1 Hm1].
      destruct (collect_slots_total _ Hl1) as [a Ha]. rewrite Ha; cbn.
      rewrite (IH lss' m eq_refl Hm Hm1 He). reflexivity.
Qed.

(** ** The pagination loop, for any bound *)

Section Driver_unrolled.

Variable cfg : config.
Variable start : M unit.
Hypothesis start_pp : preserves_page start.

Lemma while_pages_unroll :
  forall k s, PAGE s + Z.of_nat k = MAX_PAGES cfg + 1 ->
    while_pages cfg start k s = pages_from start (PAGE s) k s.
Proof.
  induction k as [| k IH]; intros [p d n t] Hk; cbn in Hk |- *; [reflexivity |].
  assert (Hle : (p <=? MAX_PAGES cfg) = true) by (apply Z.leb_le; lia).
  unfold page_iteration, get_page, set_page, emit, sleep, mbind; cbn.
  rewrite Hle.
  pose proof (start_pp (mkState p d n (t ++ [EvInfoZ "Fetching page %s" [p]]))) as Hp.
  destruct (start _) as [[[] | e] s2]; [| reflexivity].
  cbn in Hp. rewrite Hp.
  apply (IH (mkState (p + 1) (db s2) (net s2)
               ((trace s2 ++ [EvInfo "Sleeping for 5 seconds..."]) ++ [EvSleep 5]))).
  cbn. lia.
Qed.

Lemma while_pages_from_page s :
  while_pages cfg start (pages_left cfg (PAGE s)) s =
  pages_from start (PAGE s) (pages_left cfg (PAGE s)) s.
Proof.
  destruct (Z_le_gt_dec (PAGE s) (MAX_PAGES cfg + 1)) as [Hle | Hgt].
  - apply while_pages_unroll. unfold pages_left. lia.
  - unfold pages_left. replace (Z.to_nat (MAX_PAGES cfg - PAGE s + 1)) with 0%nat by lia.
    reflexivity.
Qed.

End Driver_unrolled.

(** ** Extra properties *)





(** X3. In both extractors, a slot without a ["slotType"] key after
    slots that carry their tags ends the extraction with an exception:
    [KeyError('slotType')] for a dict, [TypeError] for any other value;
    the qualifying slots before it are not returned. *)
Theorem X3_untagged_slot_raises :
  (forall doc pre s post,
     api_slots doc = Some (pre ++ s :: post)%list -> Forall slot_wf pre ->
     obj_get s "slotType" = None ->
     get_products_api doc =
       Err (match s with JObj _ => KeyError "slotType" | _ => TypeError end)) /\
  (forall doc pre s post,
     html_slots doc = Some (pre ++ s :: post)%list -> Forall slot_wf pre ->
     obj_get s "slotType" = None ->
     get_products_html doc =
       Err (match s with JObj _ => KeyError "slotType" | _ => TypeError end)).
Proof.
  split; intros doc pre s post H Hpre Hs.
  - unfold get_products_api. unfold api_slots in H.
    destruct (obj_get doc "RESPONSE") as [r |] eqn:Hr; [| discriminate].
    destruct (obj_get r "slots") as [sl |] eqn:Hsl; [| discriminate].
    rewrite (getitem_some _ _ _ Hr); cbn [rbind].
    rewrite (getitem_some _ _ _ Hsl); cbn [rbind].
    destruct (py_iter sl) as [l | e]; cbn in H; [| discriminate].
    injection H as ->. cbn [rbind].
    exact (collect_slots_err _ _ _ _ Hpre (slot_step_no_type s Hs)).
  - unfold get_products_html. unfold html_slots in H.
    destruct (obj_get doc "pageDataV4") as [p |] eqn:Hp; [| discriminate].
    destruct (obj_get p "page") as [pg |] eqn:Hpg; [| discriminate].
    destruct (obj_get pg "data") as [[| | | | | kvs] |] eqn:Hd; try discriminate.
    rewrite (getitem_some _ _ _ Hp); cbn [rbind].
    rewrite (getitem_some _ _ _ Hpg); cbn [rbind].
    rewrite (getitem_some _ _ _ Hd); cbn [rbind py_values].
    destruct (iter_all (map snd kvs)) as [lss |] eqn:Hl; [| discriminate].
    injection H as Hc.
    exact (collect_items_err _ _ _ _ _ _ Hl Hc Hpre (slot_step_no_type s Hs)).
Qed.

Lemma X3_untagged_slot_raises_witness :
  get_products_api (api_doc [slot_of JNull; JObj []]) = Err (KeyError "slotType") /\
  get_products_html (html_doc [slot_of JNull; JStr "x"]) = Err TypeError.
Proof.
  split.
  - apply (proj1 X3_untagged_slot_raises (api_doc [slot_of JNull; JObj []])
             [slot_of JNull] (JObj []) []).
    + reflexivity.
    + constructor; [| constructor].
      split; [exists (JStr "WIDGET"); split; [reflexivity |] |].
      * intros _. exists (JObj [("type", JStr "PRODUCT_SUMMARY");
                                ("data", JObj [("products",
                                  JArr [JObj [("productInfo", JObj [("value", JNull)])]])])]),
                         (JStr "PRODUCT_SUMMARY"). split; reflexivity.
      * intros _. exists JNull. reflexivity.
    + reflexivity.
  - apply (proj2 X3_untagged_slot_raises (html_doc [slot_of JNull; JStr "x"])
             [slot_of JNull] (JStr "x") []).
    + reflexivity.
    + constructor; [| constructor].
      split; [exists (JStr "WIDGET"); split; [reflexivity |] |].
      * intros _. exists (JObj [("type", JStr "PRODUCT_SUMMARY");
                                ("data", JObj [("products",
                                  JArr [JObj [("productInfo", JObj [("value", JNull)])]])])]),
                         (JStr "PRODUCT_SUMMARY"). split; reflexivity.
      * intros _. exists JNull. reflexivity.
    + reflexivity.
Defined.

(** X4. The per-record loop of [start] normalises and saves the payloads
    in order.  If every payload normalises, it returns normally, the
    table becomes [add_new] of the normalised records (each one inserted
    only when its product id is not stored yet, checked against the
    table as it stands, including rows inserted earlier in the same
    page), and the network and the page counter are untouched.
    Otherwise the loop raises the first normalisation error. *)
Theorem X4_persist_loop_semantics :
  forall base ps s,
  match map_res (get_product_details base) ps with
  | Ok ds => exists s', persist_all base ps s = (Ok tt, s') /\
               db s' = add_new (db s) ds /\ net s' = net s /\ PAGE s' = PAGE s
  | Err e => fst (persist_all base ps s) = Err e
  end.
Proof. intros base ps s. exact (persist_all_db base ps s). Qed.

(** X5. The per-record loop never deletes or rewrites a stored row: the
    table after it, whether it returned or raised, extends the table
    before it.  If no two stored rows share a product id, none do after. *)
Theorem X5_persist_unique_append_only :
  forall base ps s,
    pids_unique (db s) ->
    pids_unique (db (snd (persist_all base ps s))) /\
    exists new, db (snd (persist_all base ps s)) = (db s ++ new)%list.
Proof. intros base ps s Hu. exact (persist_all_unique base ps s Hu). Qed.

Lemma X5_persist_unique_append_only_witness :
  pids_unique (db (fresh [] [])) /\
  pids_unique (db (snd (persist_all BASE_URL_html
                          [payload_P1 JNull JNull JNull; payload_P1 JNull JNull JNull]
                          (fresh [] [])))) /\
  exists new, db (snd (persist_all BASE_URL_html
                          [payload_P1 JNull JNull JNull; payload_P1 JNull JNull JNull]
                          (fresh [] []))) = (db (fresh [] []) ++ new)%list.
Proof.
  assert (H0 : pids_unique (db (fresh [] []))) by (cbn; exact I).
  split; [exact H0 |].
  exact (X5_persist_unique_append_only BASE_URL_html
           [payload_P1 JNull JNull JNull; payload_P1 JNull JNull JNull] (fresh [] []) H0).
Defined.

(** X6. When every payload of a page normalises, after the loop every
    normalised record's product id is stored, whether it was inserted now
    or was already in the table. *)
Theorem X6_persist_covers_all :
  forall base ps ds s,
    map_res (get_product_details base) ps = Ok ds ->
    forall d, In d ds -> pid_in (db (snd (persist_all base ps s))) (product_id d) = true.
Proof.
  intros base ps ds s H d Hin.
  pose proof (persist_all_db base ps s) as Hp. rewrite H in Hp.
  destruct Hp as [s' [Hr [Hd _]]]. rewrite Hr. cbn [snd]. rewrite Hd.
  apply add_new_covers, Hin.
Qed.

Lemma X6_persist_covers_all_witness :
  map_res (get_product_details BASE_URL_html) [payload_P1 JNull JNull JNull] = Ok [record_P1] /\
  pid_in (db (snd (persist_all BASE_URL_html [payload_P1 JNull JNull JNull]
                     (fresh [record_P1] [])))) (product_id record_P1) = true.
Proof.
  assert (H : map_res (get_product_details BASE_URL_html) [payload_P1 JNull JNull JNull]
              = Ok [record_P1]) by (vm_compute; reflexivity).
  split; [exact H |].
  apply (X6_persist_covers_all BASE_URL_html [payload_P1 JNull JNull JNull] [record_P1]
           (fresh [record_P1] []) H).
  left; reflexivity.
Defined.

(** X7. [get_json_response] hands to [json.loads] exactly the text
    between the [window.__INITIAL_STATE__ = ] assignment and the
    trailing semicolons, when that text does not itself contain the
    assignment prefix and does not end with ';'.  A parsed text is
    returned with no log line; an unparseable one logs an error and gives
    an empty dict. *)
Theorem X7_state_script_round_trip :
  forall find_script json_loads text t n s,
    find_script text = Some (Some (INITIAL_STATE_PREFIX ++ t ++ semis n)) ->
    occurs INITIAL_STATE_PREFIX (t ++ semis n) = false ->
    ends_with_semi t = false ->
    get_json_response find_script json_loads text s =
      match json_loads t with
      | Some j => (Ok j, s)
      | None => (Ok (JObj []), mkState (PAGE s) (db s) (net s)
                                  (trace s ++ [EvError "Failed to parse JSON data: %s"]))
      end.
Proof.
  intros find_script json_loads text t n s Hf Hocc Hend.
  unfold get_json_response. rewrite Hf. unfold INITIAL_STATE_PREFIX in *.
  rewrite py_replace_leading by exact Hocc.
  rewrite rstrip_semi_semis by exact Hend.
  destruct (json_loads t); reflexivity.
Qed.

Lemma X7_state_script_round_trip_witness :
  get_json_response script_body (loads_to (html_doc []))
    (INITIAL_STATE_PREFIX ++ "{}" ++ semis 1) (fresh [] []) = (Ok (html_doc []), fresh [] []).
Proof.
  exact (X7_state_script_round_trip script_body (loads_to (html_doc []))
           (INITIAL_STATE_PREFIX ++ "{}" ++ semis 1) "{}" 1 (fresh [] [])
           eq_refl ltac:(vm_compute; reflexivity) ltac:(vm_compute; reflexivity)).
Defined.

(** X8. One page end to end: when the first request of [start] succeeds,
    the page yields a state object whose extraction succeeds and whose
    payloads all normalise, [start] returns normally after consuming one
    network answer, the table becomes [add_new] of the normalised
    records, and [PAGE] is unchanged; for both scrapers (the API scraper
    parses the response body itself). *)
Theorem X8_start_page_end_to_end :
  (forall find_script json_loads query s reason text rest body doc ps ds,
     net s = RespHttp true reason text :: rest ->
     find_script text = Some (Some body) ->
     json_loads (rstrip_semi (py_replace body INITIAL_STATE_PREFIX "")) = Some doc ->
     get_products_html doc = Ok ps ->
     map_res (get_product_details BASE_URL_html) ps = Ok ds ->
     exists s', start_html find_script json_loads query s = (Ok tt, s') /\
       db s' = add_new (db s) ds /\ net s' = rest /\ PAGE s' = PAGE s) /\
  (forall json_loads query s reason text rest doc ps ds,
     net s = RespHttp true reason text :: rest ->
     json_loads text = Some doc ->
     get_products_api doc = Ok ps ->
     map_res (get_product_details BASE_URL_api) ps = Ok ds ->
     exists s', start_api json_loads query s = (Ok tt, s') /\
       db s' = add_new (db s) ds /\ net s' = rest /\ PAGE s' = PAGE s).
Proof.
  split.
  - intros find_script json_loads query [p d n t] reason text rest body doc ps ds
      Hn Hf Hl Hp Hm; cbn in Hn; subst n.
    unfold start_html, get_response_html, get_response_html_body, retry.
    cbv [Nat.pred retry_loop catch mbind mret raise lift emit sleep get_page set_page
         next_response].
    cbn [PAGE db net trace].
    unfold get_json_response. rewrite Hf. unfold INITIAL_STATE_PREFIX in Hl. rewrite Hl.
    cbv [mret]. rewrite Hp.
    pose proof (persist_all_db BASE_URL_html ps
      (mkState p d rest (((t ++ [EvGet SEARCH_URL query p]) ++ [EvInfo "Getting JSON response"]))))
      as Hpa.
    rewrite Hm in Hpa. destruct Hpa as [s' [Hr [Hd [Hn' Hp']]]].
    rewrite Hr. exists s'. cbn in Hd, Hn', Hp'. repeat split; assumption.
  - intros json_loads query [p d n t] reason text rest doc ps ds Hn Hl Hp Hm;
      cbn in Hn; subst n.
    unfold start_api, get_response_api, get_response_api_body, retry.
    cbv [Nat.pred retry_loop catch mbind mret raise lift emit sleep get_page set_page
         next_response].
    cbn [PAGE db net trace]. rewrite Hl, Hp.
    pose proof (persist_all_db BASE_URL_api ps
      (mkState p d rest (t ++ [EvPost BASE_URL_api query p]))) as Hpa.
    rewrite Hm in Hpa. destruct Hpa as [s' [Hr [Hd [Hn' Hp']]]].
    rewrite Hr. exists s'. cbn in Hd, Hn', Hp'. repeat split; assumption.
Qed.

Lemma X8_start_page_end_to_end_witness :
  exists s', start_html script_body (loads_to (html_doc [slot_of (payload_P1 JNull JNull JNull)]))
               "Mobile Phones" (fresh [] [RespHttp true "OK" "<html/>"]) = (Ok tt, s') /\
    db s' = add_new [] [record_P1] /\ net s' = [] /\ PAGE s' = 1.
Proof.
  exact (proj1 X8_start_page_end_to_end script_body
           (loads_to (html_doc [slot_of (payload_P1 JNull JNull JNull)]))
           "Mobile Phones" (fresh [] [RespHttp true "OK" "<html/>"]) "OK" "<html/>" []
           "<html/>" (html_doc [slot_of (payload_P1 JNull JNull JNull)])
           [payload_P1 JNull JNull JNull] [record_P1]
           eq_refl eq_refl eq_refl
           ltac:(vm_compute; reflexivity) ltac:(vm_compute; reflexivity)).
Defined.

(** X9. With pagination enabled, for any [MAX_PAGES] and any starting
    [PAGE], both [run] methods perform one loop iteration for each page
    from [PAGE] up to [MAX_PAGES], in increasing order, each setting
    [PAGE] to its page, calling [start], sleeping 5 units and moving to
    the next page, and none if [PAGE] already exceeds [MAX_PAGES].  The
    iterations do not depend on what [start] extracted: a page with no
    products does not end the loop.  [start] is any page step that leaves
    [PAGE] alone, as both [start] methods do. *)
Theorem X9_run_visits_pages_in_order :
  forall cfg (start : string -> M unit),
    ENABLE_PAGINATION cfg = true ->
    (forall q, preserves_page (start q)) ->
    forall s,
      run_html cfg start s =
        (emit (EvInfo "Starting Flipkart Scraper...") ;;
         emit (EvInfo "PAGINATION ENABLED") ;;
         emit (EvInfoZ "Starting from page %s -> %s" [PAGE s; PAGE s + MAX_PAGES cfg]) ;;
         pages_from (start "Mobile Phones") (PAGE s) (pages_left cfg (PAGE s)) ;;
         emit (EvInfo "All pages fetched") ;;
         emit (EvInfo "All products saved to database") ;;
         emit (EvInfo "Flipkart Scraper Completed")) s /\
      run_api cfg start s =
        (emit (EvInfo "Flipkart API Scraper Started") ;;
         emit (EvInfo "PAGINATION ENABLED") ;;
         emit (EvInfoZ "Starting from page %s -> %s" [PAGE s; PAGE s + MAX_PAGES cfg]) ;;
         pages_from (start "Mobile Phones") (PAGE s) (pages_left cfg (PAGE s)) ;;
         emit (EvInfo "All pages fetched") ;;
         emit (EvInfo "Flipkart API Scraper Completed")) s.
Proof.
  intros cfg start HE Hpp [p d n t].
  unfold run_html, run_api. rewrite HE. cbn [PAGE].
  split; cbv [mbind emit get_page]; cbn [PAGE db net trace];
    match goal with
    | |- context [while_pages cfg ?st (pages_left cfg p) ?s1] =>
        pose proof (while_pages_from_page cfg st (Hpp _) s1) as Hw;
        cbn [PAGE] in Hw; rewrite Hw
    end; reflexivity.
Qed.

Lemma X9_run_visits_pages_in_order_witness :
  ENABLE_PAGINATION cfg_html = true /\
  run_html cfg_html (start_html script_body (loads_to (html_doc []))) (fresh [] []) =
    (emit (EvInfo "Starting Flipkart Scraper...") ;;
     emit (EvInfo "PAGINATION ENABLED") ;;
     emit (EvInfoZ "Starting from page %s -> %s"
             [PAGE (fresh [] []); PAGE (fresh [] []) + MAX_PAGES cfg_html]) ;;
     pages_from (start_html script_body (loads_to (html_doc [])) "Mobile Phones")
       (PAGE (fresh [] [])) (pages_left cfg_html (PAGE (fresh [] []))) ;;
     emit (EvInfo "All pages fetched") ;;
     emit (EvInfo "All products saved to database") ;;
     emit (EvInfo "Flipkart Scraper Completed")) (fresh [] []).
Proof.
  split; [reflexivity |].
  exact (proj1 (X9_run_visits_pages_in_order cfg_html
                  (start_html script_body (loads_to (html_doc [])))
                  eq_refl (start_html_preserves_page script_body (loads_to (html_doc [])))
                  (fresh [] []))).
Defined.

(** X10. The API scraper as configured ([ENABLE_PAGINATION = False])
    never changes [PAGE], whether its run returns or raises: every run of
    an instance requests the page the instance was created with. *)
Theorem X10_api_run_keeps_page :
  forall json_loads s, PAGE (snd (run_api cfg_api (start_api json_loads) s)) = PAGE s.
Proof.
  intros json_loads.
  change (preserves_page (run_api cfg_api (start_api json_loads))).
  unfold run_api; cbn [ENABLE_PAGINATION cfg_api].
  solve_pp; apply start_api_preserves_page.
Qed.
